(** * Maps_UTM_ED50: the geodesy core of [src/app/index.tsx]

    The application has two pieces of numeric logic:
    - [generateConeCoordinates], the direction cone drawn around the user's
      position (first version of the screen);
    - [handleMapPress], the conversion of a tapped point into UTM ED50
      coordinates (second version of the screen).

    Numbers.  JavaScript numbers are IEEE 754 binary64 values.  The
    arithmetic of [handleMapPress] ([+], [/], [<], [Math.floor], [toFixed],
    string interpolation) is fully determined by ECMAScript and is embedded
    on Rocq's primitive binary64 floats, so that the embedding computes what
    the program computes, bit for bit.  [Math.sin], [Math.cos], [Math.asin]
    and [Math.atan2] are only required by ECMAScript to be implementation
    approximations, so [generateConeCoordinates] is embedded over an abstract
    arithmetic [JSMath], whose instances are binary64 with the host's four
    functions as parameters.  Facts about the shape of the cone hold for
    every instance; the values of the cone at given points are computed
    with the correctly rounded functions, tabulated in [host_math].

    State and libraries.  [handleMapPress] is an event handler of a React
    component: it returns nothing and stores its result with
    [setClickedPoint]; it is embedded as a transition of the component's
    state.  The projection itself is done by the library [proj4], which is
    not part of the application: it is a parameter of the embedding, a
    function from the two projection definitions and the point to the
    projected point. *)

From Stdlib Require Import ZArith NArith QArith Qround Qpower Lia Psatz.
From Stdlib Require Import Bool List Ascii String.
From Stdlib Require Import Floats.
Import ListNotations.

Set Warnings "-inexact-float".

(* ================================================================= *)
(** ** Decimal digits *)

Definition digit (n : N) : ascii := ascii_of_N (48 + n).

Fixpoint decimal_fuel (fuel : nat) (n : N) : string :=
  match fuel with
  | O => EmptyString
  | S fuel' =>
      if (n <? 10)%N then String (digit n) EmptyString
      else (decimal_fuel fuel' (n / 10) ++ String (digit (n mod 10)) EmptyString)%string
  end.

(** The decimal numeral of [n], most significant digit first, no leading
    zero ("0" for zero). *)
Definition decimal (n : N) : string :=
  decimal_fuel (S (N.to_nat (N.log2 n))) n.

Fixpoint zeros (n : nat) : string :=
  match n with
  | O => EmptyString
  | S n' => String "0"%char (zeros n')
  end.

(* ================================================================= *)
(** ** The Number type: binary64 *)

Definition pow10 (z : Z) : Q := Qpower (10 # 1) z.

(** The real value of the finite float with mantissa [m] and exponent [e],
    as given by [Prim2SF]: [m * 2^e]. *)
Definition SFvalue (m : positive) (e : Z) : Q :=
  (inject_Z (Z.pos m) * Qpower (2 # 1) e)%Q.

(** [Math.floor]: the largest integral Number not above [x]; NaN, the
    infinities and both zeros are returned unchanged. *)
Definition Math_floor (x : float) : float :=
  match Prim2SF x with
  | S754_finite s m e =>
      if (0 <=? e)%Z then x
      else
        let q := (Z.pos m / 2 ^ (- e))%Z in
        let r := (Z.pos m mod 2 ^ (- e))%Z in
        if s
        then (- of_uint63 (Uint63.of_Z (if (r =? 0)%Z then q else q + 1)))%float
        else of_uint63 (Uint63.of_Z q)
  | _ => x
  end.

(** *** Number::toString (radix 10)

    For a finite non-zero value the digits are the shortest decimal
    [s * 10^(n-k)] (with [k] digits in [s]) that converts back to the same
    Number; among several, the one closest to the value. *)

(** Does the real [c] convert to the Number whose rounding interval is
    [lo, hi]?  The end points convert to it only when its mantissa is even. *)
Definition in_interval (lo hi : Q) (closed : bool) (c : Q) : bool :=
  if closed then Qle_bool lo c && Qle_bool c hi
  else negb (Qle_bool c lo) && negb (Qle_bool hi c).

(** The [n] with [10^(n-1) <= v < 10^n], for [0 < v]. *)
Definition decimal_exponent (v : Q) : Z :=
  let g :=
    if Qle_bool 1 v
    then Z.of_nat (String.length (decimal (Z.to_N (Qfloor v))))
    else (1 - Z.of_nat (String.length (decimal (Z.to_N (Qfloor (/ v))))))%Z in
  if Qle_bool (pow10 g) v then (g + 1)%Z
  else if Qle_bool (pow10 (g - 1)) v then g
  else (g - 1)%Z.

(** The [k]-digit candidates next to [v]: [Some (s, n)] when one of them
    lies in the rounding interval. *)
Definition candidate (v lo hi : Q) (closed : bool) (n k : Z) : option (Z * Z) :=
  let u := pow10 (n - k) in
  let c1 := Qfloor (v / u) in
  let c2 := (c1 + 1)%Z in
  let ok1 := in_interval lo hi closed (inject_Z c1 * u) in
  let ok2 := in_interval lo hi closed (inject_Z c2 * u) in
  let pick :=
    match ok1, ok2 with
    | true, true =>
        match Qcompare (v - inject_Z c1 * u) (inject_Z c2 * u - v) with
        | Lt => Some c1
        | Gt => Some c2
        | Eq => Some (if Z.even c1 then c1 else c2)
        end
    | true, false => Some c1
    | false, true => Some c2
    | false, false => None
    end in
  match pick with
  | Some s => if (s =? 10 ^ k)%Z then Some (10 ^ (k - 1), n + 1)%Z else Some (s, n)
  | None => None
  end.

Fixpoint shortest_from (fuel : nat) (v lo hi : Q) (closed : bool) (n k : Z)
  : Z * Z * Z :=
  match fuel with
  | O => (Qfloor (v / pow10 (n - k)), n, k)
  | S fuel' =>
      match candidate v lo hi closed n k with
      | Some (s, n') => (s, n', k)
      | None => shortest_from fuel' v lo hi closed n (k + 1)
      end
  end.

(** [(s, n, k)] for the finite positive float [m * 2^e]. *)
Definition shortest (m : positive) (e : Z) : Z * Z * Z :=
  let v := SFvalue m e in
  let half_up := (Qpower (2 # 1) e / (2 # 1))%Q in
  let half_down :=
    if ((Z.pos m =? 2 ^ 52) && (-1074 <? e))%Z
    then (half_up / (2 # 1))%Q else half_up in
  shortest_from 17 v (v - half_down) (v + half_up) (Z.even (Z.pos m))
                (decimal_exponent v) 1.

Definition Number_format (snk : Z * Z * Z) : string :=
  let '(s, n, k) := snk in
  let ds := decimal (Z.to_N s) in
  (if ((-5 <=? n) && (n <=? 21))%Z then
     if (k <=? n)%Z then ds ++ zeros (Z.to_nat (n - k))
     else if (0 <? n)%Z then
       substring 0 (Z.to_nat n) ds ++ "." ++ substring (Z.to_nat n) (Z.to_nat (k - n)) ds
     else "0." ++ zeros (Z.to_nat (- n)) ++ ds
   else
     let ex := (n - 1)%Z in
     let exs := (if (ex <? 0)%Z then "-" else "+") ++ decimal (Z.abs_N ex) in
     if (k =? 1)%Z then ds ++ "e" ++ exs
     else substring 0 1 ds ++ "." ++ substring 1 (Z.to_nat (k - 1)) ds ++ "e" ++ exs)%string.

Definition Number_toString (x : float) : string :=
  match Prim2SF x with
  | S754_nan => "NaN"
  | S754_zero _ => "0"
  | S754_infinity s => if s then "-Infinity" else "Infinity"
  | S754_finite s m e =>
      ((if s then "-" else "") ++ Number_format (shortest m e))%string
  end.

(** *** Number.prototype.toFixed

    [fractionDigits] outside 0..100 raises a RangeError in ECMAScript; the
    source only passes 2. *)

(** The integer [n] for which [n / 10^f - v] is closest to zero, the larger
    one when there are two. *)
Definition toFixed_n (f : nat) (v : Q) : Z :=
  Qfloor (v * pow10 (Z.of_nat f) + (1 # 2))%Q.

Definition toFixed_render (f : nat) (n : Z) : string :=
  let m := decimal (Z.to_N n) in
  match f with
  | O => m
  | S _ =>
      let k := String.length m in
      let m' := if (k <=? f)%nat then (zeros (f + 1 - k) ++ m)%string else m in
      let k' := if (k <=? f)%nat then (f + 1)%nat else k in
      (substring 0 (k' - f) m' ++ "." ++ substring (k' - f) f m')%string
  end.

Definition Number_toFixed (f : nat) (x : float) : string :=
  match Prim2SF x with
  | S754_nan => "NaN"
  | S754_infinity s => if s then "-Infinity" else "Infinity"
  | S754_zero _ => toFixed_render f 0
  | S754_finite s m e =>
      let v := SFvalue m e in
      ((if s then "-" else "") ++
       (if Qle_bool (pow10 21) v then Number_format (shortest m e)
        else toFixed_render f (toFixed_n f v)))%string
  end.

(* ================================================================= *)
(** ** Arithmetic and the [Math] object, abstractly *)

Class JSMath (num : Type) : Type := {
  lit : Z -> num;                      (* an integer literal *)
  add : num -> num -> num;
  sub : num -> num -> num;
  mul : num -> num -> num;
  div : num -> num -> num;
  Math_PI : num;
  Math_sin : num -> num;
  Math_cos : num -> num;
  Math_asin : num -> num;
  Math_atan2 : num -> num -> num
}.

Declare Scope js_scope.
Delimit Scope js_scope with js.
Infix "+" := add : js_scope.
Infix "-" := sub : js_scope.
Infix "*" := mul : js_scope.
Infix "/" := div : js_scope.

(** The object literal [{ latitude, longitude }]. *)
Record LatLng (num : Type) : Type := mkLatLng {
  latitude : num;
  longitude : num
}.
Arguments mkLatLng {num} _ _.
Arguments latitude {num} _.
Arguments longitude {num} _.

(* ================================================================= *)
(** ** First screen: the direction cone *)

Section Cone.
Context {num : Type} `{JSMath num}.
Local Open Scope js_scope.

(** [generateConeCoordinates(lat, lon, heading, radiusMeters = 100)];
    an omitted [radiusMeters] is [None]. *)
Definition generateConeCoordinates
    (lat lon heading : num) (radiusMeters_arg : option num)
  : list (LatLng num) :=
  let radiusMeters :=
    match radiusMeters_arg with Some r => r | None => lit 100 end in
  let R := lit 6371000 in
  let d := radiusMeters / R in
  let brng1 := ((heading - lit 30) * Math_PI) / lit 180 in
  let brng2 := ((heading + lit 30) * Math_PI) / lit 180 in
  let lat1 := (lat * Math_PI) / lit 180 in
  let lon1 := (lon * Math_PI) / lit 180 in
  let lat2 :=
    Math_asin (Math_sin lat1 * Math_cos d +
               Math_cos lat1 * Math_sin d * Math_cos brng1) in
  let lon2 :=
    lon1 +
    Math_atan2 (Math_sin brng1 * Math_sin d * Math_cos lat1)
               (Math_cos d - Math_sin lat1 * Math_sin lat2) in
  let lat3 :=
    Math_asin (Math_sin lat1 * Math_cos d +
               Math_cos lat1 * Math_sin d * Math_cos brng2) in
  let lon3 :=
    lon1 +
    Math_atan2 (Math_sin brng2 * Math_sin d * Math_cos lat1)
               (Math_cos d - Math_sin lat1 * Math_sin lat3) in
  [ mkLatLng lat lon;
    mkLatLng ((lat2 * lit 180) / Math_PI) ((lon2 * lit 180) / Math_PI);
    mkLatLng ((lat3 * lit 180) / Math_PI) ((lon3 * lit 180) / Math_PI);
    mkLatLng lat lon ].

(** *** The destination-point formula, as the specification words it *)

Definition earthRadius : num := lit 6371000.
Definition toRadians (deg : num) : num := deg * Math_PI / lit 180.
Definition toDegrees (rad : num) : num := rad * lit 180 / Math_PI.

(** The point reached from [(lat, lon)] (degrees) after travelling
    [radiusMeters] on the sphere along the bearing [bearing] (degrees). *)
Definition destination_spec (lat lon bearing radiusMeters : num) : LatLng num :=
  let d := radiusMeters / earthRadius in
  let brng := toRadians bearing in
  let lat1 := toRadians lat in
  let lon1 := toRadians lon in
  let lat2 :=
    Math_asin (Math_sin lat1 * Math_cos d
               + Math_cos lat1 * Math_sin d * Math_cos brng) in
  let lon2 :=
    lon1 + Math_atan2 (Math_sin brng * Math_sin d * Math_cos lat1)
                      (Math_cos d - Math_sin lat1 * Math_sin lat2) in
  mkLatLng (toDegrees lat2) (toDegrees lon2).
End Cone.

(** *** Binary64 arithmetic, with the host's trigonometric functions *)

Definition float_of_Z (z : Z) : float :=
  match z with
  | Z0 => 0%float
  | Zpos p => of_uint63 (Uint63.of_Z (Zpos p))
  | Zneg p => (- of_uint63 (Uint63.of_Z (Zpos p)))%float
  end.

(** [Math.PI], the binary64 value closest to pi. *)
Definition float_PI : float := 0x1.921fb54442d18p+1%float.

Definition binary64_math (fsin fcos fasin : float -> float)
    (fatan2 : float -> float -> float) : JSMath float :=
  {| lit := float_of_Z;
     add := PrimFloat.add; sub := PrimFloat.sub;
     mul := PrimFloat.mul; div := PrimFloat.div;
     Math_PI := float_PI;
     Math_sin := fsin; Math_cos := fcos; Math_asin := fasin;
     Math_atan2 := fatan2 |}.

(** *** The [Math] functions of a host

    ECMAScript fixes the results of [Math.sin], [Math.cos], [Math.asin] and
    [Math.atan2] at a few arguments only: NaN, the zeros, the infinities and,
    for [Math.asin], the arguments beyond 1.  Everywhere else the result is
    the engine's approximation.  [host_math] is binary64 arithmetic with the
    functions of a host whose results are correctly rounded: it follows
    ECMAScript where ECMAScript is exact, and elsewhere it reads a table
    that gives, for an argument, the binary64 value nearest to the
    mathematical result.  The tables hold the arguments that the cones
    evaluated in this development pass to the four functions; any other
    argument gives NaN, so that a computation which leaves the tables cannot
    end in a number. *)

Definition Math_sin_table : list (float * float) :=
  [ (0x1.921f22db99c8bp+0, 0x1.ffffffffac447p-1);
    (0x1.075655d0163ebp-16, 0x1.075655cfe7cdbp-16);
    (0x1.921f405697665p+0, 0x1.ffffffffca97cp-1);
    (0x1.0c152382d7365p+0, 0x1.bb67ae8584caap-1);
    (0x1.921ed0bbe4dcbp+0, 0x1.ffffffff33fcdp-1);
    (0x1.921fb54442d18p+2, (-0x1.1a62633145c07p-52));
    (0x1.d524fe24f89f2p+2, 0x1.bb67ae8584cacp-1);
    (0x1.8da7e39bae2a4p+0, 0x1.ffec097f5af8ap-1);
    (0x1.1df468559667ep-6, 0x1.1df0b0e91c796p-6);
    (0x1.8da7eec5abe7p+0, 0x1.ffec09e31c712p-1);
    (0x1.921fb54442d18p+0, 0x1.0p+0);
    (0x1.227a4f9cf1656p-70, 0x1.227a4f9cf1656p-70);
    (0x1.4f1a6c638d03fp+1, 0x1.fffffffffffffp-2);
    ((-0x1.c81d0dc18fe26p-17), (-0x1.c81d0dc1538e2p-17));
    ((-0x1.0c152382d7365p-1), (-0x1.fffffffffffffp-2));
    (0x1.c81d0dc18fe26p-17, 0x1.c81d0dc1538e2p-17);
    (0x1.0c152382d7365p-1, 0x1.fffffffffffffp-2) ]%float.

Definition Math_cos_table : list (float * float) :=
  [ (0x1.075655d0163ebp-16, 0x1.fffffffef11d8p-1);
    (0x1.921f22db99c8bp+0, 0x1.24d1521198dcbp-17);
    (0x1.0c152382d7365p+0, 0x1.0000000000001p-1);
    (0x1.921fb54442d18p+2, 0x1.0p+0);
    (0x1.d524fe24f89f2p+2, 0x1.ffffffffffffbp-2);
    (0x1.1df468559667ep-6, 0x1.ffec097f9bb2p-1);
    (0x1.8da7e39bae2a4p+0, 0x1.1df0b2b89dcf7p-6);
    (0x1.921fb54442d18p+0, 0x1.1a62633145c07p-54);
    (0x1.4f1a6c638d03fp+1, (-0x1.bb67ae8584cabp-1));
    ((-0x1.0c152382d7365p-1), 0x1.bb67ae8584cabp-1);
    (0x1.0c152382d7365p-1, 0x1.bb67ae8584cabp-1) ]%float.

Definition Math_asin_table : list (float * float) :=
  [ (0x1.ffffffffca97cp-1, 0x1.921f405697665p+0);
    (0x1.ffffffff33fcdp-1, 0x1.921ed0bbe4dcbp+0);
    (0x1.ffec09e31c712p-1, 0x1.8da7eec5abe7p+0);
    (0x1.227a4f9cf1656p-70, 0x1.227a4f9cf1656p-70);
    ((-0x1.c81d0dc1538e2p-17), (-0x1.c81d0dc18fe26p-17));
    (0x1.c81d0dc1538e2p-17, 0x1.c81d0dc18fe26p-17) ]%float.

Definition Math_atan2_table : list (float * float * float) :=
  [ (0x1.04db0ad0b369cp-33, 0x1.0dc4p-37, 0x1.8199af9323316p+0);
    ((-0x1.4c4105c9278b5p-85), (-0x1.0b7d6p-34), (-0x1.921fb54442d17p+1));
    (0x1.04db0ad0b369dp-33, 0x1.0dc4p-37, 0x1.8199af9323316p+0);
    (0x1.1497ccf8c6836p-12, 0x1.3f555e5f1fp-13, 0x1.0c19749af84fep+0);
    (0x1.075655cfe7cdbp-16, 0x1.fffffffef11d8p-1, 0x1.075655d0163ebp-16);
    (0x1.075655cfe7cdap-17, 0x1.fffffffef11d8p-1, 0x1.075655d05be82p-17);
    ((-0x1.075655cfe7cdap-17), 0x1.fffffffef11d8p-1, (-0x1.075655d05be82p-17)) ]%float.

Fixpoint table_lookup (x : float) (table : list (float * float)) : option float :=
  match table with
  | [] => None
  | (a, v) :: rest =>
      if PrimFloat.Leibniz.eqb a x then Some v else table_lookup x rest
  end.

Fixpoint table_lookup2 (y x : float) (table : list (float * float * float))
  : option float :=
  match table with
  | [] => None
  | (b, a, v) :: rest =>
      if PrimFloat.Leibniz.eqb b y && PrimFloat.Leibniz.eqb a x then Some v
      else table_lookup2 y x rest
  end.

Definition tabulated (entry : option float) : float :=
  match entry with Some v => v | None => nan end.

(** [Math.sin(x)]: NaN for NaN and the infinities, [x] for the zeros. *)
Definition host_sin (x : float) : float :=
  if is_nan x || is_infinity x then nan
  else if is_zero x then x
  else tabulated (table_lookup x Math_sin_table).

(** [Math.cos(x)]: NaN for NaN and the infinities, 1 for the zeros. *)
Definition host_cos (x : float) : float :=
  if is_nan x || is_infinity x then nan
  else if is_zero x then 1%float
  else tabulated (table_lookup x Math_cos_table).

(** [Math.asin(x)]: NaN for NaN and for [x > 1] or [x < -1], [x] for the
    zeros. *)
Definition host_asin (x : float) : float :=
  if is_nan x || (1 <? x)%float || (x <? -1)%float then nan
  else if is_zero x then x
  else tabulated (table_lookup x Math_asin_table).

(** [Math.atan2(y, x)]: the cases that ECMAScript lists for NaN, the zeros
    and the infinities, with the binary64 values of pi, pi/2, pi/4 and
    3 pi/4. *)
Definition host_atan2 (y x : float) : float :=
  let pi := float_PI in
  let half_pi := 0x1.921fb54442d18p+0%float in
  let quarter_pi := 0x1.921fb54442d18p-1%float in
  let three_quarter_pi := 0x1.2d97c7f3321d2p+1%float in
  let signed (v : float) : float := if get_sign y then (- v)%float else v in
  if is_nan y || is_nan x then nan
  else if is_infinity y then
    if is_infinity x then
      signed (if get_sign x then three_quarter_pi else quarter_pi)
    else signed half_pi
  else if is_zero y then
    signed (if get_sign x then pi else 0%float)
  else if is_infinity x then
    signed (if get_sign x then pi else 0%float)
  else if is_zero x then signed half_pi
  else tabulated (table_lookup2 y x Math_atan2_table).

Definition host_math : JSMath float :=
  binary64_math host_sin host_cos host_asin host_atan2.

(* ================================================================= *)
(** ** Second screen: UTM ED50 coordinates of the tapped point *)

Module LocationData.
Record t : Type := mk {
  latitude : float;
  longitude : float;
  accuracy : option float;
  timestamp : string
}.
End LocationData.

Module ClickedPoint.
Record t : Type := mk {
  lat : float;
  lon : float;
  est : string;
  nord : string;
  fuso : float;
  emisfero : string
}.
End ClickedPoint.

(** The [useState] cells of the component. *)
Record AppState : Type := mkAppState {
  location : option LocationData.t;
  locLoader : bool;
  error : option string;
  heading : float;
  clickedPoint : option ClickedPoint.t;
  mapType : option string
}.

Definition setClickedPoint (p : ClickedPoint.t) (st : AppState) : AppState :=
  {| location := location st;
     locLoader := locLoader st;
     error := error st;
     heading := heading st;
     clickedPoint := Some p;
     mapType := mapType st |}.

(** The state of the component when it is mounted. *)
Definition initialState : AppState :=
  {| location := None;
     locLoader := true;
     error := None;
     heading := 0%float;
     clickedPoint := None;
     mapType := Some "standard"%string |}.

(** The press event of the map: [event.nativeEvent.coordinate]. *)
Record NativeEvent : Type := mkNativeEvent { coordinate : LatLng float }.
Record MapPressEvent : Type := mkMapPressEvent { nativeEvent : NativeEvent }.

Definition pressAt (latitude longitude : float) : MapPressEvent :=
  mkMapPressEvent (mkNativeEvent (mkLatLng latitude longitude)).

(** The taps on which the conversion can be carried out: [proj4] throws on
    a coordinate that is not a finite number. *)
Definition finiteCoordinate (event : MapPressEvent) : bool :=
  is_finite (latitude (coordinate (nativeEvent event)))
  && is_finite (longitude (coordinate (nativeEvent event))).

Section MapPress.
Local Open Scope string_scope.
Local Open Scope float_scope.

(** The projection library: [proj4(from, to, [x, y])] returns [[x', y']].
    (It raises an exception on coordinates that are not finite; the
    coordinates of a tap are.) *)
Variable proj4 : string -> string -> float * float -> float * float.

(** A. the UTM zone *)
Definition fuso (longitude : float) : float :=
  Math_floor ((longitude + 180) / 6) + 1.

(** B. the hemisphere *)
Definition isSouth (latitude : float) : bool := latitude <? 0.

Definition stringaEmisfero (latitude : float) : string :=
  if isSouth latitude then " +south" else "".

(** C. the ED50 projection string *)
Definition proj4String (latitude longitude : float) : string :=
  "+proj=utm +zone=" ++ Number_toString (fuso longitude)
  ++ stringaEmisfero latitude
  ++ " +ellps=intl +towgs84=-87,-98,-121,0,0,0,0 +units=m +no_defs".

(** The field [emisfero] of the stored point: [isSouth ? "S" : "N"]. *)
Definition emisfero (latitude : float) : string :=
  if isSouth latitude then "S" else "N".

(** D, E. the conversion and the state update *)
Definition handleMapPress (event : MapPressEvent) (st : AppState) : AppState :=
  let latitude := latitude (coordinate (nativeEvent event)) in
  let longitude := longitude (coordinate (nativeEvent event)) in
  let '(x, y) :=
    proj4 "WGS84" (proj4String latitude longitude) (longitude, latitude) in
  setClickedPoint
    {| ClickedPoint.lat := latitude;
       ClickedPoint.lon := longitude;
       ClickedPoint.est := Number_toFixed 2 x;
       ClickedPoint.nord := Number_toFixed 2 y;
       ClickedPoint.fuso := fuso longitude;
       ClickedPoint.emisfero := emisfero latitude |}
    st.

End MapPress.

(** *** Reading a projection string

    A projection string is a list of blank-separated parameters, each
    [+key=value] or a bare flag [+key]. *)

Fixpoint split_on (sep : ascii) (s : string) : list string :=
  match s with
  | EmptyString => [EmptyString]
  | String c s' =>
      if Ascii.eqb c sep then EmptyString :: split_on sep s'
      else
        match split_on sep s' with
        | w :: ws => String c w :: ws
        | [] => [String c EmptyString]
        end
  end.

Fixpoint key_value (s : string) : string * option string :=
  match s with
  | EmptyString => (EmptyString, None)
  | String c s' =>
      if Ascii.eqb c "="%char then (EmptyString, Some s')
      else let (k, v) := key_value s' in (String c k, v)
  end.

Definition param_of_token (tok : string) : option (string * option string) :=
  match tok with
  | String "+"%char body => Some (key_value body)
  | _ => None
  end.

Definition proj_params (def : string) : list (option (string * option string)) :=
  List.map param_of_token (split_on " "%char def).

(** Is the blank character absent from [s]? *)
Fixpoint no_blank (s : string) : bool :=
  match s with
  | EmptyString => true
  | String c s' => negb (Ascii.eqb c " "%char) && no_blank s'
  end.

(** *** Rounding to two decimals, as the specification words it *)

(** The magnitude of a finite Number, as a rational. *)
Definition SF_magnitude (sf : spec_float) : option Q :=
  match sf with
  | S754_zero _ => Some 0%Q
  | S754_finite _ m e => Some (SFvalue m e)
  | _ => None
  end.

(** Is the real value of the Number below zero? (-0 is not.) *)
Definition SF_negative (sf : spec_float) : bool :=
  match sf with
  | S754_finite s _ _ => s
  | _ => false
  end.

(** Finite, and of magnitude below 10^21. *)
Definition toFixed_in_range (x : float) : bool :=
  match SF_magnitude (Prim2SF x) with
  | Some v => negb (Qle_bool (pow10 21) v)
  | None => false
  end.

(** [str] is the numeral of [x] rounded to hundredths: [n] is the integer
    nearest to [100 * |x|] (the larger one on a tie), and [str] is the sign,
    the decimal numeral of [n / 100], a point, and the two digits of
    [n mod 100]. *)
Definition rounded_to_hundredths (x : float) (str : string) : Prop :=
  exists (v : Q) (n : N),
    SF_magnitude (Prim2SF x) = Some v /\
    (inject_Z (Z.of_N n) - (1 # 2) <= (100 # 1) * v)%Q /\
    ((100 # 1) * v < inject_Z (Z.of_N n) + (1 # 2))%Q /\
    str = ((if SF_negative (Prim2SF x) then "-" else "")
           ++ decimal (n / 100) ++ "."
           ++ String (digit ((n / 10) mod 10))
                (String (digit (n mod 10)) EmptyString))%string.

(* ================================================================= *)
(** ** Platform services and the remaining handlers *)

(** The outcome of an awaited platform call: its value, or the [message]
    of the error it threw ([None] when the error has none). *)
Inductive Settled (A : Type) : Type :=
| Fulfilled (value : A)
| Rejected (message : option string).
Arguments Fulfilled {A} _.
Arguments Rejected {A} _.

(** A button of [Alert.alert]: [{ text, style?, onPress? }]; the only
    [onPress] of the application opens the system settings. *)
Module AlertButton.
Record t : Type := mk {
  text : string;
  style : option string;
  opensSettings : bool
}.
End AlertButton.

Inductive UIEffect : Type :=
| Alert_alert (title message : string) (buttons : list AlertButton.t).

(** A position fix of the platform: [coords.latitude], [coords.longitude],
    [coords.accuracy] and [timestamp]. *)
Module LocationObject.
Record t : Type := mk {
  latitude : float;
  longitude : float;
  accuracy : option float;
  timestamp : float
}.
End LocationObject.

(** [requestPermissions] (the same in both screens); [answer] is what
    [Location.requestForegroundPermissionsAsync()] settles to, its [status]
    when it is fulfilled. *)
Definition requestPermissions (answer : Settled string)
  : Settled bool * list UIEffect :=
  match answer with
  | Rejected message => (Rejected message, [])
  | Fulfilled status =>
      if negb (String.eqb status "granted") then
        (Fulfilled false,
         [Alert_alert
            "Permesso negato"
            "Abilita i permessi di localizzazione nelle impostazioni."
            [ AlertButton.mk "Annulla" (Some "cancel"%string) false;
              AlertButton.mk "Impostazioni" None true ]])
      else (Fulfilled true, [])
  end.

(** ToBoolean of a Number: false for +0, -0 and NaN. *)
Definition truthy_number (x : float) : bool := negb (is_zero x || is_nan x).

(** [location.accuracy || 10], the radius of the accuracy circle. *)
Definition circleRadius (accuracy : option float) : float :=
  match accuracy with
  | Some a => if truthy_number a then a else 10%float
  | None => 10%float
  end.

(** *** First screen *)

Module Screen1.

Module LocationData.
Record t : Type := mk {
  latitude : float;
  longitude : float;
  accuracy : option float;
  timestamp : string;
  heading : option float
}.
End LocationData.

Record State : Type := mkState {
  location : option LocationData.t;
  locLoader : bool;
  error : option string;
  heading : float
}.

Definition initialState : State :=
  {| location := None; locLoader := false; error := None; heading := 0%float |}.

Definition setLocation (l : option LocationData.t) (st : State) : State :=
  {| location := l; locLoader := locLoader st; error := error st;
     heading := heading st |}.

Definition setLocLoader (b : bool) (st : State) : State :=
  {| location := location st; locLoader := b; error := error st;
     heading := heading st |}.

Definition setError (e : option string) (st : State) : State :=
  {| location := location st; locLoader := locLoader st; error := e;
     heading := heading st |}.

Definition setHeading (h : float) (st : State) : State :=
  {| location := location st; locLoader := locLoader st; error := error st;
     heading := h |}.

Section Handlers.

(** [new Date(t).toLocaleTimeString()], which depends on the locale. *)
Variable toLocaleTimeString : float -> string.

(** [getCurrentLocation]; [permission], [position] and [headingAnswer] are
    what the three awaited platform calls settle to (a call that is not
    reached is not consulted).  The result is the state once the [finally]
    block has run, with the alerts shown on the way. *)
Definition getCurrentLocation
    (permission : Settled string)
    (position : Settled LocationObject.t)
    (headingAnswer : Settled float)
    (st : State) : State * list UIEffect :=
  let st := setLocLoader true st in
  let st := setError None st in
  let '(st, effects) :=
    match requestPermissions permission with
    | (Rejected message, effects) => (setError message st, effects)
    | (Fulfilled false, effects) => (st, effects)
    | (Fulfilled true, effects) =>
        match position with
        | Rejected message => (setError message st, effects)
        | Fulfilled loc =>
            match headingAnswer with
            | Rejected message => (setError message st, effects)
            | Fulfilled trueHeading =>
                let st :=
                  setLocation
                    (Some {| LocationData.latitude := LocationObject.latitude loc;
                             LocationData.longitude := LocationObject.longitude loc;
                             LocationData.accuracy := LocationObject.accuracy loc;
                             LocationData.timestamp :=
                               toLocaleTimeString (LocationObject.timestamp loc);
                             LocationData.heading := Some trueHeading |})
                    st in
                (setHeading trueHeading st, effects)
            end
        end
    end in
  (setLocLoader false st, effects).

End Handlers.

(** The [initialRegion] of the map. *)
Record Region : Type := mkRegion {
  region_center : LatLng float;
  latitudeDelta : float;
  longitudeDelta : float
}.

Definition initialRegion (st : State) : Region :=
  match location st with
  | Some l =>
      mkRegion (mkLatLng (LocationData.latitude l) (LocationData.longitude l))
               0.005%float 0.005%float
  | None => mkRegion (mkLatLng 41.9028%float 12.4964%float) 5%float 5%float
  end.

(** What is drawn on the map: nothing without a location, otherwise the
    accuracy circle (centre, radius) and the line of the direction cone. *)
Definition overlays (M : JSMath float) (st : State)
  : option (LatLng float * float * list (LatLng float)) :=
  match location st with
  | None => None
  | Some l =>
      Some (mkLatLng (LocationData.latitude l) (LocationData.longitude l),
            circleRadius (LocationData.accuracy l),
            generateConeCoordinates (LocationData.latitude l)
                                    (LocationData.longitude l)
                                    (heading st) (Some 100%float))
  end.

End Screen1.

(** *** Second screen *)

Definition setLocation (l : option LocationData.t) (st : AppState) : AppState :=
  {| location := l;
     locLoader := locLoader st;
     error := error st;
     heading := heading st;
     clickedPoint := clickedPoint st;
     mapType := mapType st |}.

Definition setLocLoader (b : bool) (st : AppState) : AppState :=
  {| location := location st;
     locLoader := b;
     error := error st;
     heading := heading st;
     clickedPoint := clickedPoint st;
     mapType := mapType st |}.

Definition setError (e : option string) (st : AppState) : AppState :=
  {| location := location st;
     locLoader := locLoader st;
     error := e;
     heading := heading st;
     clickedPoint := clickedPoint st;
     mapType := mapType st |}.

Definition setHeading (h : float) (st : AppState) : AppState :=
  {| location := location st;
     locLoader := locLoader st;
     error := error st;
     heading := h;
     clickedPoint := clickedPoint st;
     mapType := mapType st |}.

Definition setMapType (t : option string) (st : AppState) : AppState :=
  {| location := location st;
     locLoader := locLoader st;
     error := error st;
     heading := heading st;
     clickedPoint := clickedPoint st;
     mapType := t |}.

(** The subscriptions held by the tracking effect; a subscription is named
    by a number. *)
Record Subscriptions : Type := mkSubscriptions {
  locationSubscription : option nat;
  headingSubscription : option nat
}.

(** [mapRef.current.animateCamera({ center, zoom, pitch }, { duration })]. *)
Record CameraAnimation : Type := mkCameraAnimation {
  camera_center : LatLng float;
  zoom : float;
  pitch : float;
  duration : float
}.

Section Tracking.
Local Open Scope string_scope.

Variable proj4 : string -> string -> float * float -> float * float.
Variable toLocaleTimeString : float -> string.

(** The callback of [Location.watchPositionAsync]. *)
Definition onPosition (newLocation : LocationObject.t) (st : AppState) : AppState :=
  let st :=
    setLocation
      (Some {| LocationData.latitude := LocationObject.latitude newLocation;
               LocationData.longitude := LocationObject.longitude newLocation;
               LocationData.accuracy := LocationObject.accuracy newLocation;
               LocationData.timestamp :=
                 toLocaleTimeString (LocationObject.timestamp newLocation) |})
      st in
  setLocLoader false st.

(** The callback of [Location.watchHeadingAsync]; [trueHeading] is
    [newHeading.trueHeading]. *)
Definition onHeading (trueHeading : float) (st : AppState) : AppState :=
  setHeading trueHeading st.

(** [startTracking], from its call to its end, in a component that stays
    mounted meanwhile: the state, the two subscription variables and the
    alerts once the call has settled.  [positionWatch] and [headingWatch]
    are what [watchPositionAsync] and [watchHeadingAsync] settle to.  (The
    call is not awaited by the effect; what happens when the component
    unmounts while one of the three calls is pending is modelled by
    [resume] and [effectStep] below.) *)
Definition startTracking
    (permission : Settled string)
    (positionWatch headingWatch : Settled nat)
    (st : AppState) : AppState * Subscriptions * list UIEffect :=
  let st := setError None st in
  match requestPermissions permission with
  | (Rejected message, effects) =>
      (setLocLoader false (setError message st),
       mkSubscriptions None None, effects)
  | (Fulfilled false, effects) =>
      (setLocLoader false st, mkSubscriptions None None, effects)
  | (Fulfilled true, effects) =>
      match positionWatch with
      | Rejected message =>
          (setLocLoader false (setError message st),
           mkSubscriptions None None, effects)
      | Fulfilled ls =>
          match headingWatch with
          | Rejected message =>
              (setLocLoader false (setError message st),
               mkSubscriptions (Some ls) None, effects)
          | Fulfilled hs =>
              (st, mkSubscriptions (Some ls) (Some hs), effects)
          end
      end
  end.

(** The cleanup of the effect: the subscriptions it removes. *)
Definition cleanup (subs : Subscriptions) : list nat :=
  ((match locationSubscription subs with Some s => [s] | None => [] end)
   ++ (match headingSubscription subs with Some s => [s] | None => [] end))%list.

(** [centerOnMe]: the camera animation it starts, if any; [mapMounted]
    tells whether [mapRef.current] is set. *)
Definition centerOnMe (mapMounted : bool) (st : AppState) : option CameraAnimation :=
  match location st with
  | Some l =>
      if mapMounted then
        Some (mkCameraAnimation
                (mkLatLng (LocationData.latitude l) (LocationData.longitude l))
                17%float 40%float 1000%float)
      else None
  | None => None
  end.

(** What can happen to the mounted component. *)
Inductive Event : Type :=
| Mount (permission : Settled string) (positionWatch headingWatch : Settled nat)
| PositionFix (newLocation : LocationObject.t)
| HeadingReading (trueHeading : float)
| MapPress (event : MapPressEvent)
| SatellitePress.

Definition step (e : Event) (st : AppState) : AppState :=
  match e with
  | Mount permission positionWatch headingWatch =>
      fst (fst (startTracking permission positionWatch headingWatch st))
  | PositionFix newLocation => onPosition newLocation st
  | HeadingReading trueHeading => onHeading trueHeading st
  | MapPress event => handleMapPress proj4 event st
  | SatellitePress => setMapType (Some "satellite") st
  end.

(** The state after a sequence of events, oldest first. *)
Definition run (events : list Event) (st : AppState) : AppState :=
  fold_left (fun st e => step e st) events st.

End Tracking.

(** *** The tracking effect, await by await

    The effect calls [startTracking()] without awaiting it and returns its
    cleanup at once, so the component can unmount while one of the three
    awaited calls is still pending.  The cleanup then reads the two [let]
    variables as they are at that moment; [startTracking] goes on after the
    unmount and assigns them later.  [startTracking] above is the whole call
    for a component that stays mounted; here the call advances one platform
    answer at a time, and [Unmount] may come in between. *)

(** The [await] at which [startTracking] is suspended, if any. *)
Inductive TrackingPhase : Type :=
| AwaitingPermission
| AwaitingPositionWatch
| AwaitingHeadingWatch
| TrackingSettled.

Record TrackingEffect : Type := mkTrackingEffect {
  phase : TrackingPhase;
  (** [locationSubscription] and [headingSubscription] of the effect *)
  variables : Subscriptions;
  mounted : bool;
  (** the subscriptions on which the cleanup has called [remove()] *)
  removed : list nat;
  component : AppState;
  alerts : list UIEffect
}.

(** What the platform answers to the awaited calls. *)
Inductive PlatformAnswer : Type :=
| PermissionAnswer (permission : Settled string)
| PositionWatchAnswer (positionWatch : Settled nat)
| HeadingWatchAnswer (headingWatch : Settled nat).

Inductive EffectEvent : Type :=
| Answer (a : PlatformAnswer)
| Unmount.

(** The effect when it has run: [setError(null)] is done, the permission
    request is pending, and the cleanup is in React's hands. *)
Definition mountEffect (st : AppState) : TrackingEffect :=
  {| phase := AwaitingPermission;
     variables := mkSubscriptions None None;
     mounted := true;
     removed := [];
     component := setError None st;
     alerts := [] |}.

(** A state setter called after the unmount changes nothing. *)
Definition setState (f : AppState -> AppState) (t : TrackingEffect) : AppState :=
  if mounted t then f (component t) else component t.

(** [startTracking] resumed at the [await] of [phase t]; an answer to a call
    that is not pending is no event of the effect. *)
Definition resume (a : PlatformAnswer) (t : TrackingEffect) : TrackingEffect :=
  let caught (message : option string) (effects : list UIEffect) :=
    {| phase := TrackingSettled;
       variables := variables t;
       mounted := mounted t;
       removed := removed t;
       component := setState (fun st => setLocLoader false (setError message st)) t;
       alerts := (alerts t ++ effects)%list |} in
  match phase t, a with
  | AwaitingPermission, PermissionAnswer permission =>
      match requestPermissions permission with
      | (Rejected message, effects) => caught message effects
      | (Fulfilled false, effects) =>
          {| phase := TrackingSettled;
             variables := variables t;
             mounted := mounted t;
             removed := removed t;
             component := setState (setLocLoader false) t;
             alerts := (alerts t ++ effects)%list |}
      | (Fulfilled true, effects) =>
          {| phase := AwaitingPositionWatch;
             variables := variables t;
             mounted := mounted t;
             removed := removed t;
             component := component t;
             alerts := (alerts t ++ effects)%list |}
      end
  | AwaitingPositionWatch, PositionWatchAnswer positionWatch =>
      match positionWatch with
      | Rejected message => caught message []
      | Fulfilled ls =>
          {| phase := AwaitingHeadingWatch;
             variables :=
               mkSubscriptions (Some ls) (headingSubscription (variables t));
             mounted := mounted t;
             removed := removed t;
             component := component t;
             alerts := alerts t |}
      end
  | AwaitingHeadingWatch, HeadingWatchAnswer headingWatch =>
      match headingWatch with
      | Rejected message => caught message []
      | Fulfilled hs =>
          {| phase := TrackingSettled;
             variables :=
               mkSubscriptions (locationSubscription (variables t)) (Some hs);
             mounted := mounted t;
             removed := removed t;
             component := component t;
             alerts := alerts t |}
      end
  | _, _ => t
  end.

(** The cleanup runs once, when the component unmounts. *)
Definition effectStep (e : EffectEvent) (t : TrackingEffect) : TrackingEffect :=
  match e with
  | Answer a => resume a t
  | Unmount =>
      if mounted t then
        {| phase := phase t;
           variables := variables t;
           mounted := false;
           removed := cleanup (variables t);
           component := component t;
           alerts := alerts t |}
      else t
  end.

Definition effectRun (events : list EffectEvent) (t : TrackingEffect)
  : TrackingEffect :=
  fold_left (fun t e => effectStep e t) events t.

(** The subscriptions that exist and on which [remove()] was never called. *)
Definition leaked (t : TrackingEffect) : list nat :=
  filter (fun s => negb (existsb (Nat.eqb s) (removed t)))
         (cleanup (variables t)).

(** The rendering: the loading screen is shown while
    [locLoader || !location]; the error text when [error] is truthy. *)
Definition showsLoadingScreen (st : AppState) : bool :=
  locLoader st || match location st with Some _ => false | None => true end.

Definition errorText (st : AppState) : option string :=
  match error st with
  | Some e => if String.eqb e "" then None else Some e
  | None => None
  end.

(** The marker of the selected point: its [title] and [description]. *)
Definition markerTitle (p : ClickedPoint.t) : string :=
  ("UTM ED50 - Fuso " ++ Number_toString (ClickedPoint.fuso p)
   ++ ClickedPoint.emisfero p)%string.

Definition markerDescription (p : ClickedPoint.t) : string :=
  ("E: " ++ ClickedPoint.est p ++ " | N: " ++ ClickedPoint.nord p)%string.

(* ================================================================= *)
(** * The runtime model on known values *)

Section RuntimeExamples.
Local Open Scope string_scope.
Local Open Scope float_scope.

Lemma Math_floor_examples :
  Math_floor 60 = 60 /\ Math_floor 60.5 = 60 /\ Math_floor 0.5 = 0 /\
  Math_floor (-0.5) = -1 /\ Math_floor (-3) = -3 /\ Math_floor (-3.2) = -4 /\
  Math_floor 1e300 = 1e300 /\ Math_floor infinity = infinity /\
  Prim2SF (Math_floor (-0)) = S754_zero true /\
  Prim2SF (Math_floor nan) = S754_nan.
Proof. repeat split; vm_compute; reflexivity. Qed.

Lemma Number_toString_examples :
  Number_toString 1 = "1" /\ Number_toString 33 = "33" /\
  Number_toString 61 = "61" /\ Number_toString (-0) = "0" /\
  Number_toString (0.1 + 0.2) = "0.30000000000000004" /\
  Number_toString 1e21 = "1e+21" /\
  Number_toString 123456789012345680000 = "123456789012345680000" /\
  Number_toString 0.000001 = "0.000001" /\ Number_toString 1e-7 = "1e-7" /\
  Number_toString 0x1p-1074 = "5e-324" /\
  Number_toString 0x1.fffffffffffffp+1023 = "1.7976931348623157e+308" /\
  Number_toString (-1.5e-7) = "-1.5e-7" /\
  Number_toString nan = "NaN" /\ Number_toString neg_infinity = "-Infinity".
Proof. repeat split; vm_compute; reflexivity. Qed.

Lemma Number_toFixed_examples :
  Number_toFixed 2 291952.8361 = "291952.84" /\
  Number_toFixed 2 123.456 = "123.46" /\ Number_toFixed 2 1.005 = "1.00" /\
  Number_toFixed 2 0.125 = "0.13" /\ Number_toFixed 2 10.235 = "10.23" /\
  Number_toFixed 2 (-0.001) = "-0.00" /\ Number_toFixed 2 (-0) = "0.00" /\
  Number_toFixed 2 (-2.5) = "-2.50" /\ Number_toFixed 2 1e21 = "1e+21" /\
  Number_toFixed 0 2.5 = "3" /\ Number_toFixed 1 1.45 = "1.4" /\
  Number_toFixed 2 nan = "NaN".
Proof. repeat split; vm_compute; reflexivity. Qed.

(** The integer literals of the cone, in binary64. *)
Lemma float_of_Z_literals :
  float_of_Z 30 = 30 /\ float_of_Z 100 = 100 /\ float_of_Z 180 = 180 /\
  float_of_Z 6371000 = 6371000.
Proof. repeat split; vm_compute; reflexivity. Qed.

End RuntimeExamples.

Section FloorFacts.

Lemma SFvalue_negative_exponent (m : positive) (e : Z) :
  (e < 0)%Z ->
  (SFvalue m e == inject_Z (Z.pos m) / inject_Z (2 ^ (- e)))%Q.
Proof.
  intros He. unfold SFvalue, Qdiv.
  replace e with (- - e)%Z at 1 by lia.
  rewrite Qpower_opp, Zpower_Qpower by lia. reflexivity.
Qed.

Lemma Qfloor_SFvalue (m : positive) (e : Z) :
  (e < 0)%Z -> Qfloor (SFvalue m e) = (Z.pos m / 2 ^ (- e))%Z.
Proof.
  intros He. rewrite (SFvalue_negative_exponent m e He).
  symmetry. apply Zdiv_Qdiv.
Qed.

Lemma Qfloor_opp_SFvalue (m : positive) (e : Z) :
  (e < 0)%Z ->
  Qfloor (- SFvalue m e)
  = (- (if (Z.pos m mod 2 ^ (- e) =? 0)%Z
        then Z.pos m / 2 ^ (- e) else Z.pos m / 2 ^ (- e) + 1))%Z.
Proof.
  intros He. rewrite (SFvalue_negative_exponent m e He).
  assert (Hd : (0 < 2 ^ (- e))%Z) by (apply Z.pow_pos_nonneg; lia).
  assert (E : (- (inject_Z (Z.pos m) / inject_Z (2 ^ (- e)))
               == inject_Z (- Z.pos m) / inject_Z (2 ^ (- e)))%Q).
  { rewrite inject_Z_opp. unfold Qdiv. ring. }
  rewrite E, <- Zdiv_Qdiv.
  destruct (Z.eqb_spec (Z.pos m mod 2 ^ (- e)) 0) as [Hr | Hr].
  - now apply Z_div_zero_opp_full.
  - rewrite Z_div_nz_opp_full by lia. lia.
Qed.

(** [Math_floor] is the floor: on a finite Number with a fractional part it
    returns the integer [floor v], [v] being the real value; a finite Number
    without fractional bits is returned as it is. *)
Lemma Math_floor_spec (x : float) (s : bool) (m : positive) (e : Z) :
  Prim2SF x = S754_finite s m e ->
  Math_floor x
  = if (0 <=? e)%Z then x
    else float_of_Z (Qfloor (if s then - SFvalue m e else SFvalue m e)%Q).
Proof.
  intros Hx. unfold Math_floor. rewrite Hx.
  destruct (Z.leb_spec 0 e) as [He | He]; [reflexivity |].
  assert (Hd : (0 < 2 ^ (- e))%Z) by (apply Z.pow_pos_nonneg; lia).
  pose proof (Z.div_pos (Z.pos m) _ (Pos2Z.is_nonneg m) Hd) as Hq.
  destruct s.
  - rewrite (Qfloor_opp_SFvalue m e He).
    set (q' := if (Z.pos m mod 2 ^ (- e) =? 0)%Z
               then (Z.pos m / 2 ^ (- e))%Z else (Z.pos m / 2 ^ (- e) + 1)%Z).
    assert (Hq' : (0 < q')%Z).
    { unfold q'. destruct (Z.eqb_spec (Z.pos m mod 2 ^ (- e)) 0) as [Hr | Hr];
        [| lia].
      pose proof (Z.div_mod (Z.pos m) (2 ^ (- e))) as Hdm.
      assert (Z.pos m / 2 ^ (- e) <> 0)%Z; [| lia].
      intros Hz. rewrite Hz, Hr in Hdm. lia. }
    destruct q' as [| p | p]; try lia. reflexivity.
  - rewrite (Qfloor_SFvalue m e He).
    destruct (Z.pos m / 2 ^ (- e))%Z as [| p | p]; try lia; reflexivity.
Qed.

End FloorFacts.

Section ZoneNumerals.
Local Open Scope string_scope.

(** The zones 1..61 print as their decimal numerals. *)
Lemma zone_numerals :
  forallb (fun z => Number_toString (float_of_Z z) =? decimal (Z.to_N z))
          (List.map Z.of_nat (seq 1 61)) = true.
Proof. vm_compute. reflexivity. Qed.

End ZoneNumerals.


(* ================================================================= *)
(** * Properties of the direction cone *)

Section ConeFacts.
Context {num : Type} `{JSMath num}.
Local Open Scope js_scope.

Lemma cone_shape (lat lon heading : num) (radius : option num) :
  exists p2 p3,
    generateConeCoordinates lat lon heading radius
    = [mkLatLng lat lon; p2; p3; mkLatLng lat lon].
Proof. unfold generateConeCoordinates. eauto. Qed.

(** C5: the cone is a list of exactly four points; the first and the fourth
    are the centre, with the very latitude and longitude that were passed in,
    and the second and third are the two destination vertices. *)
Theorem cone_closed_ring (lat lon heading : num) (radius : option num) :
  let ring := generateConeCoordinates lat lon heading radius in
  let r := match radius with Some r => r | None => lit 100 end in
  List.length ring = 4%nat /\
  nth_error ring 0 = Some (mkLatLng lat lon) /\
  nth_error ring 3 = Some (mkLatLng lat lon) /\
  firstn 2 (skipn 1 ring) =
    [destination_spec lat lon (heading - lit 30) r;
     destination_spec lat lon (heading + lit 30) r].
Proof.
  destruct radius; cbv zeta; repeat split; reflexivity.
Qed.

(** C3: the second and third vertices are the destination points of the
    spherical formula (Earth radius 6371000 m, angular distance
    [radiusMeters / R], angles converted from degrees to radians and back),
    for the bearings [heading - 30] and [heading + 30]. *)
Theorem cone_vertices_by_destination_formula (lat lon heading radiusMeters : num) :
  earthRadius = lit 6371000 /\
  (forall deg, toRadians deg = deg * Math_PI / lit 180) /\
  (forall rad, toDegrees rad = rad * lit 180 / Math_PI) /\
  nth_error (generateConeCoordinates lat lon heading (Some radiusMeters)) 1
    = Some (destination_spec lat lon (heading - lit 30) radiusMeters) /\
  nth_error (generateConeCoordinates lat lon heading (Some radiusMeters)) 2
    = Some (destination_spec lat lon (heading + lit 30) radiusMeters).
Proof. repeat split. Qed.

End ConeFacts.

(** ** The heading *)

Section ConeHeading.
Context {num : Type} `{JSMath num}.
Local Open Scope js_scope.


End ConeHeading.

(** ** The cone on binary64 *)

Section ConeBinary64.
Local Open Scope float_scope.

(** The tables agree with one another to the last bit or two: where an
    argument has both a sine and a cosine, their squares add up to 1 within
    2^-52, and the sine of every tabulated arc sine is tabulated too and
    gives the argument back within 2^-52.  The exact cases of ECMAScript
    used below are as it states them. *)
Lemma host_tables_consistent :
  forallb
    (fun entry =>
       match table_lookup (fst entry) Math_cos_table with
       | Some c => abs (snd entry * snd entry + c * c - 1) <=? 0x1p-52
       | None => true
       end)
    Math_sin_table = true /\
  forallb
    (fun entry =>
       match table_lookup (snd entry) Math_sin_table with
       | Some s => abs (s - fst entry) <=? 0x1p-52
       | None => false
       end)
    Math_asin_table = true /\
  host_sin 0 = 0 /\ host_cos 0 = 1 /\ host_asin 0 = 0 /\
  host_atan2 0 (-1) = float_PI /\ host_atan2 (-0) (-1) = - float_PI /\
  is_nan (host_asin 0x1.0000000000001p+0) = true.
Proof. repeat split; vm_compute; reflexivity. Qed.

(** A full turn of the heading changes the rounding of the bearing: the
    bearing of heading 30 is 0, whose sine is 0, while the bearing of
    heading 390 is the binary64 value of 2 pi, whose sine is negative. *)
Lemma bearing_after_full_turn :
  ((30 - 30) * float_PI) / 180 = 0 /\
  host_sin 0 = 0 /\
  ((30 + 360 - 30) * float_PI) / 180 = 0x1.921fb54442d18p+2 /\
  host_sin 0x1.921fb54442d18p+2 = -0x1.1a62633145c07p-52 /\
  (host_sin 0x1.921fb54442d18p+2 <? 0) = true.
Proof. repeat split; vm_compute; reflexivity. Qed.


(** C10, as the claim states it, fails on binary64: the returned latitudes
    are not always in [-90, 90].  With the valid centre (89, 0), heading 30
    and radius 111194.9159 the argument of [Math.asin] is rounded to the
    first binary64 value above 1, [Math.asin] returns NaN, and the second
    point of the cone has NaN for latitude and for longitude. *)
Lemma cone_latitude_nan_binary64 :
  (-90 <=? 89) && (89 <=? 90) && (-180 <=? 0) && (0 <=? 180)
  && (0 <? 111194.9159) = true /\
  host_sin ((89 * float_PI) / 180) * host_cos (111194.9159 / 6371000)
  + host_cos ((89 * float_PI) / 180) * host_sin (111194.9159 / 6371000)
    * host_cos (((30 - 30) * float_PI) / 180)
  = 0x1.0000000000001p+0 /\
  (1 <? 0x1.0000000000001p+0) = true /\
  (exists p,
      nth_error
        (@generateConeCoordinates float host_math 89 0 30 (Some 111194.9159)) 1
      = Some p /\
      is_nan (latitude p) = true /\
      is_nan (longitude p) = true /\
      (-90 <=? latitude p) && (latitude p <=? 90) = false).
Proof.
  split; [vm_compute; reflexivity |].
  split; [vm_compute; reflexivity |].
  split; [vm_compute; reflexivity |].
  eexists. split; [vm_compute; reflexivity |].
  repeat split; vm_compute; reflexivity.
Qed.

(** C10, amended: the longitudes of the cone are not normalized.  A vertex
    has latitude [Math.asin(...)] and longitude [lon1 + Math.atan2(...)],
    both converted to degrees and returned as they are.  The valid centre
    (0, 179.9999) with heading 120 and radius 100 has a vertex of longitude
    180.00079932160594, outside [-180, 180].  The latitudes are numbers of
    [-90, 90] only as long as the argument of [Math.asin] is not rounded
    beyond 1: for the valid centre (89, 0) a vertex has latitude NaN. *)
Theorem cone_longitude_never_normalized :
  (forall (num : Type) (M : JSMath num) (lat lon heading r : num),
      let d := (r / lit 6371000)%js in
      let lat1 := toRadians lat in
      let vertex (brng : num) :=
        let lat2 :=
          Math_asin (Math_sin lat1 * Math_cos d
                     + Math_cos lat1 * Math_sin d * Math_cos brng)%js in
        mkLatLng
          (toDegrees lat2)
          (toDegrees
             (toRadians lon
              + Math_atan2 (Math_sin brng * Math_sin d * Math_cos lat1)
                           (Math_cos d - Math_sin lat1 * Math_sin lat2))%js) in
      generateConeCoordinates lat lon heading (Some r)
      = [ mkLatLng lat lon;
          vertex (toRadians (heading - lit 30)%js);
          vertex (toRadians (heading + lit 30)%js);
          mkLatLng lat lon ]) /\
  (exists lat lon heading r p,
      (-90 <=? lat) && (lat <=? 90) && (-180 <=? lon) && (lon <=? 180)
      && (179 <? lon) && (0 <? r) = true /\
      (lat, lon, heading, r) = (0, 179.9999, 120, 100) /\
      nth_error (@generateConeCoordinates float host_math lat lon heading (Some r)) 1
      = Some p /\
      p = mkLatLng 0x1.040c9a4c44b83p-64 180.00079932160594 /\
      (180 <? longitude p) = true) /\
  (exists lat lon heading r p,
      (-90 <=? lat) && (lat <=? 90) && (-180 <=? lon) && (lon <=? 180)
      && (0 <? r) = true /\
      In p (@generateConeCoordinates float host_math lat lon heading (Some r)) /\
      is_nan (latitude p) = true).
Proof.
  split; [reflexivity | split].
  - exists 0, 179.9999, 120, 100. eexists.
    split; [vm_compute; reflexivity |].
    split; [reflexivity |].
    split; [vm_compute; reflexivity |].
    split; vm_compute; reflexivity.
  - exists 89, 0, 30, 111194.9159. eexists.
    split; [vm_compute; reflexivity |].
    split; [right; left; vm_compute; reflexivity |].
    vm_compute; reflexivity.
Qed.

End ConeBinary64.


(* ================================================================= *)
(** * Properties of the UTM ED50 conversion *)

Section MapPressFacts.
Local Open Scope string_scope.
Local Open Scope float_scope.

Variable proj4 : string -> string -> float * float -> float * float.

(** What [handleMapPress] stores, field by field. *)
Lemma handleMapPress_clickedPoint (event : MapPressEvent) (st : AppState) :
  let latitude := latitude (coordinate (nativeEvent event)) in
  let longitude := longitude (coordinate (nativeEvent event)) in
  let xy := proj4 "WGS84" (proj4String latitude longitude) (longitude, latitude) in
  clickedPoint (handleMapPress proj4 event st)
  = Some {| ClickedPoint.lat := latitude;
            ClickedPoint.lon := longitude;
            ClickedPoint.est := Number_toFixed 2 (fst xy);
            ClickedPoint.nord := Number_toFixed 2 (snd xy);
            ClickedPoint.fuso := fuso longitude;
            ClickedPoint.emisfero := emisfero latitude |}.
Proof.
  cbv zeta. unfold handleMapPress.
  destruct (proj4 _ _ _) as [x y]. reflexivity.
Qed.

Lemma handleMapPress_frame (event : MapPressEvent) (st : AppState) :
  location (handleMapPress proj4 event st) = location st /\
  locLoader (handleMapPress proj4 event st) = locLoader st /\
  error (handleMapPress proj4 event st) = error st /\
  heading (handleMapPress proj4 event st) = heading st /\
  mapType (handleMapPress proj4 event st) = mapType st.
Proof.
  unfold handleMapPress.
  destruct (proj4 _ _ _) as [x y]. repeat split.
Qed.

(** The zones of the specification's sample longitudes. *)
Lemma fuso_examples :
  fuso (-180) = 1 /\ fuso (-177) = 1 /\ fuso (-174) = 2 /\ fuso 3 = 31 /\
  fuso 174 = 60 /\ fuso 177 = 60.
Proof. repeat split; vm_compute; reflexivity. Qed.

(** The largest binary64 value below 180 is also sent to zone 61:
    [longitude + 180] rounds to 360. *)
Lemma fuso_just_below_180 :
  (0x1.67fffffffffffp+7 <? 180) = true /\ fuso 0x1.67fffffffffffp+7 = 61.
Proof. split; vm_compute; reflexivity. Qed.

(** C1: the zone stored for a tap is [Math.floor((longitude + 180) / 6) + 1];
    on the antimeridian, longitude 180, that is zone 61, outside 1..60. *)
Theorem zone_at_longitude_180 (latitude : float) (st : AppState) :
  fuso 180 = Math_floor ((180 + 180) / 6) + 1 /\
  option_map ClickedPoint.fuso
    (clickedPoint (handleMapPress proj4 (pressAt latitude 180) st))
  = Some 61 /\
  (61 <=? 60) = false.
Proof.
  rewrite handleMapPress_clickedPoint. cbn [option_map ClickedPoint.fuso].
  repeat split; vm_compute; reflexivity.
Qed.

(** C4: the hemisphere stored for a tap is "S" exactly when [latitude < 0]
    holds, and "N" otherwise; latitude -1 gives "S", latitude 1 gives "N",
    and latitude 0 gives "N". *)
Theorem hemisphere_south_iff_negative (event : MapPressEvent) (st : AppState) :
  let latitude := latitude (coordinate (nativeEvent event)) in
  let stored (ev : MapPressEvent) :=
    option_map ClickedPoint.emisfero (clickedPoint (handleMapPress proj4 ev st)) in
  (stored event = Some "S" <-> (latitude <? 0) = true) /\
  (stored event = Some "N" <-> (latitude <? 0) = false) /\
  stored (pressAt (-1) 0) = Some "S" /\
  stored (pressAt 1 0) = Some "N" /\
  stored (pressAt 0 0) = Some "N" /\
  stored (pressAt (-0) 0) = Some "N".
Proof.
  cbv beta zeta.
  rewrite !handleMapPress_clickedPoint. cbn [option_map ClickedPoint.emisfero].
  split; [| split; [| repeat split; vm_compute; reflexivity]].
  - unfold emisfero, isSouth.
    destruct (_ <? 0); split; intros E; try reflexivity; discriminate E.
  - unfold emisfero, isSouth.
    destruct (_ <? 0); split; intros E; try reflexivity; discriminate E.
Qed.

End MapPressFacts.

(** X18: [latitude < 0] on binary64: a point is classified south exactly
    when its latitude is a negative finite number or minus infinity (so
    neither -0 nor NaN is south). *)
Lemma isSouth_value (latitude : float) :
  isSouth latitude = true <->
  (exists m e, Prim2SF latitude = S754_finite true m e) \/
  Prim2SF latitude = S754_infinity true.
Proof.
  unfold isSouth. rewrite ltb_spec.
  change (Prim2SF 0) with (S754_zero false).
  destruct (Prim2SF latitude) as [s | s | | s m e]; try destruct s; cbn;
    split; intros Hx; try discriminate Hx; try reflexivity; eauto;
    destruct Hx as [(m' & e' & Hx) | Hx]; discriminate Hx.
Qed.

(* ================================================================= *)
(** * Decimal numerals and strings *)

Section StringFacts.
Local Open Scope string_scope.

Lemma length_append (a b : string) :
  String.length (a ++ b) = (String.length a + String.length b)%nat.
Proof. induction a as [| c a IH]; simpl; [reflexivity | now rewrite IH]. Qed.

Lemma append_assoc (a b c : string) : (a ++ b) ++ c = a ++ (b ++ c).
Proof. induction a as [| x a IH]; simpl; [reflexivity | now rewrite IH]. Qed.

Lemma substring_whole (b : string) : substring 0 (String.length b) b = b.
Proof. induction b as [| c b IH]; simpl; [reflexivity | now rewrite IH]. Qed.

Lemma substring_prefix (a b : string) :
  substring 0 (String.length a) (a ++ b) = a.
Proof.
  induction a as [| c a IH]; simpl.
  - destruct b; reflexivity.
  - now rewrite IH.
Qed.

Lemma substring_suffix (a b : string) :
  substring (String.length a) (String.length b) (a ++ b) = b.
Proof.
  induction a as [| c a IH]; simpl; [apply substring_whole | exact IH].
Qed.

Lemma no_blank_append (a b : string) :
  no_blank (a ++ b) = no_blank a && no_blank b.
Proof.
  induction a as [| c a IH]; simpl; [reflexivity |].
  rewrite IH. now rewrite andb_assoc.
Qed.

Lemma no_blank_substring (s : string) :
  no_blank s = true -> forall n m, no_blank (substring n m s) = true.
Proof.
  induction s as [| c s IH]; intros Hs n m.
  - destruct n, m; reflexivity.
  - simpl in Hs. apply andb_true_iff in Hs as [Hc Hs].
    destruct n as [| n]; [destruct m as [| m] |]; simpl.
    + reflexivity.
    + rewrite Hc. now apply IH.
    + now apply IH.
Qed.

Lemma no_blank_zeros (n : nat) : no_blank (zeros n) = true.
Proof. induction n as [| n IH]; simpl; [reflexivity | exact IH]. Qed.

Lemma digit_not_blank (n : N) :
  (n < 10)%N -> Ascii.eqb (digit n) " "%char = false.
Proof.
  intros Hn. destruct n as [| p]; [reflexivity |].
  do 4 (try (destruct p as [p | p |]; try reflexivity)); lia.
Qed.

Lemma no_blank_decimal_fuel (fuel : nat) (n : N) :
  no_blank (decimal_fuel fuel n) = true.
Proof.
  revert n. induction fuel as [| fuel IH]; intros n; simpl; [reflexivity |].
  destruct (n <? 10)%N eqn:Hlt.
  - simpl. apply N.ltb_lt in Hlt. now rewrite digit_not_blank.
  - rewrite no_blank_append, IH. simpl.
    rewrite digit_not_blank; [reflexivity |].
    apply N.mod_lt. discriminate.
Qed.

Lemma no_blank_decimal (n : N) : no_blank (decimal n) = true.
Proof. apply no_blank_decimal_fuel. Qed.

Lemma log2_div10 (n : N) : (10 <= n)%N -> (N.log2 (n / 10) < N.log2 n)%N.
Proof.
  intros Hn.
  assert (Hq : (0 < n / 10)%N).
  { apply N.div_str_pos. lia. }
  assert (H2 : (2 * (n / 10) <= n)%N).
  { pose proof (N.Div0.mul_div_le n 10). lia. }
  apply N.log2_le_mono in H2.
  rewrite (N.log2_double _ Hq) in H2. lia.
Qed.

Lemma decimal_fuel_enough (f1 f2 : nat) (n : N) :
  (N.to_nat (N.log2 n) < f1)%nat -> (N.to_nat (N.log2 n) < f2)%nat ->
  decimal_fuel f1 n = decimal_fuel f2 n.
Proof.
  revert f2 n. induction f1 as [| f1 IH]; intros f2 n H1 H2; [lia |].
  destruct f2 as [| f2]; [lia |]. simpl.
  destruct (n <? 10)%N eqn:Hlt; [reflexivity |].
  apply N.ltb_ge in Hlt. pose proof (log2_div10 n Hlt) as Hlog.
  rewrite (IH f2 (n / 10)%N) by lia. reflexivity.
Qed.

Lemma decimal_small (n : N) :
  (n < 10)%N -> decimal n = String (digit n) EmptyString.
Proof.
  intros Hn. unfold decimal. simpl.
  apply N.ltb_lt in Hn. now rewrite Hn.
Qed.

Lemma decimal_step (n : N) :
  (10 <= n)%N ->
  decimal n = decimal (n / 10) ++ String (digit (n mod 10)) EmptyString.
Proof.
  intros Hn. unfold decimal at 1. simpl.
  assert (Hge : (n <? 10)%N = false) by now apply N.ltb_ge.
  rewrite Hge. f_equal.
  pose proof (log2_div10 n Hn).
  apply decimal_fuel_enough; lia.
Qed.

Lemma decimal_nonempty (n : N) : (0 < String.length (decimal n))%nat.
Proof.
  destruct (N.lt_ge_cases n 10) as [Hlt | Hge].
  - rewrite decimal_small by exact Hlt. simpl. lia.
  - rewrite decimal_step by exact Hge. rewrite length_append. simpl. lia.
Qed.

End StringFacts.

Section NumberStringFacts.
Local Open Scope string_scope.

Lemma no_blank_Number_format (snk : Z * Z * Z) :
  no_blank (Number_format snk) = true.
Proof.
  destruct snk as [[s n] k]. unfold Number_format.
  pose proof (no_blank_decimal (Z.to_N s)) as Hds.
  repeat match goal with
         | |- context [if ?b then _ else _] => destruct b
         end;
    repeat rewrite no_blank_append;
    repeat rewrite no_blank_substring by exact Hds;
    repeat rewrite no_blank_zeros;
    repeat rewrite no_blank_decimal;
    repeat rewrite Hds;
    reflexivity.
Qed.

(** A Number never prints with a blank in it. *)
Lemma no_blank_Number_toString (x : float) :
  no_blank (Number_toString x) = true.
Proof.
  unfold Number_toString.
  destruct (Prim2SF x) as [s | s | | s m e]; try destruct s; try reflexivity.
  - rewrite no_blank_append, no_blank_Number_format. reflexivity.
  - rewrite no_blank_append, no_blank_Number_format. reflexivity.
Qed.

Lemma split_on_blank_word (w rest : string) :
  no_blank w = true ->
  split_on " "%char (w ++ String " "%char rest) = w :: split_on " "%char rest.
Proof.
  induction w as [| c w IH]; intros Hw; simpl.
  - reflexivity.
  - simpl in Hw. apply andb_true_iff in Hw as [Hc Hw].
    apply negb_true_iff in Hc. rewrite Hc, (IH Hw). reflexivity.
Qed.

End NumberStringFacts.

Section ProjectionStringFacts.
Local Open Scope string_scope.

(** The string handed to the projection library, parameter by parameter. *)
Lemma proj4String_params (latitude longitude : float) :
  proj_params (proj4String latitude longitude)
  = ([ Some ("proj", Some "utm");
       Some ("zone", Some (Number_toString (fuso longitude))) ]
     ++ (if isSouth latitude then [ Some ("south", None) ] else [])
     ++ [ Some ("ellps", Some "intl");
          Some ("towgs84", Some "-87,-98,-121,0,0,0,0");
          Some ("units", Some "m");
          Some ("no_defs", None) ])%list.
Proof.
  unfold proj_params, proj4String, stringaEmisfero.
  pose proof (no_blank_Number_toString (fuso longitude)) as Hz.
  set (z := Number_toString (fuso longitude)) in *.
  change ("+proj=utm +zone=" ++ z ++ (if isSouth latitude then " +south" else "")
          ++ " +ellps=intl +towgs84=-87,-98,-121,0,0,0,0 +units=m +no_defs")
    with ("+proj=utm" ++ String " "%char
            (("+zone=" ++ z) ++
               (if isSouth latitude then " +south" else "")
               ++ " +ellps=intl +towgs84=-87,-98,-121,0,0,0,0 +units=m +no_defs")).
  rewrite split_on_blank_word by reflexivity.
  assert (Hzone : no_blank ("+zone=" ++ z) = true) by exact Hz.
  destruct (isSouth latitude).
  - change (("+zone=" ++ z) ++ " +south"
            ++ " +ellps=intl +towgs84=-87,-98,-121,0,0,0,0 +units=m +no_defs")
      with (("+zone=" ++ z) ++ String " "%char
              "+south +ellps=intl +towgs84=-87,-98,-121,0,0,0,0 +units=m +no_defs").
    rewrite (split_on_blank_word _ _ Hzone). reflexivity.
  - change (("+zone=" ++ z) ++ ""
            ++ " +ellps=intl +towgs84=-87,-98,-121,0,0,0,0 +units=m +no_defs")
      with (("+zone=" ++ z) ++ String " "%char
              "+ellps=intl +towgs84=-87,-98,-121,0,0,0,0 +units=m +no_defs").
    rewrite (split_on_blank_word _ _ Hzone). reflexivity.
Qed.

(** C2: whatever the tapped point, the projection definition handed to the
    projection library has exactly the parameters: projection utm, the
    computed zone, the south flag if and only if the hemisphere is "S",
    ellipsoid intl, the seven datum-shift values -87, -98, -121, 0, 0, 0, 0,
    units m (and the no_defs flag); the library is called on nothing else. *)
Theorem projection_definition_parameters (latitude longitude : float) :
  proj_params (proj4String latitude longitude)
  = ([ Some ("proj", Some "utm");
       Some ("zone", Some (Number_toString (fuso longitude))) ]
     ++ (if String.eqb (emisfero latitude) "S"
         then [ Some ("south", None) ] else [])
     ++ [ Some ("ellps", Some "intl");
          Some ("towgs84", Some "-87,-98,-121,0,0,0,0");
          Some ("units", Some "m");
          Some ("no_defs", None) ])%list
  /\ split_on ","%char "-87,-98,-121,0,0,0,0"
     = ["-87"; "-98"; "-121"; "0"; "0"; "0"; "0"]
  /\ (forall proj4 st,
        handleMapPress proj4 (pressAt latitude longitude) st
        = handleMapPress
            (fun _ _ _ =>
               proj4 "WGS84" (proj4String latitude longitude)
                     (longitude, latitude))
            (pressAt latitude longitude) st).
Proof.
  split; [| split; [reflexivity | reflexivity]].
  rewrite proj4String_params.
  unfold emisfero. destruct (isSouth latitude); reflexivity.
Qed.

End ProjectionStringFacts.

Section ToFixedFacts.
Local Open Scope string_scope.

Lemma SFvalue_nonneg (m : positive) (e : Z) : (0 <= SFvalue m e)%Q.
Proof.
  unfold SFvalue. apply Qmult_le_0_compat.
  - unfold Qle; simpl; lia.
  - apply Qpower_0_le. unfold Qle; simpl; lia.
Qed.

Lemma toFixed_n_nonneg (v : Q) : (0 <= v)%Q -> (0 <= toFixed_n 2 v)%Z.
Proof.
  intros Hv. unfold toFixed_n.
  change 0%Z with (Qfloor 0). apply Qfloor_resp_le.
  change (pow10 (Z.of_nat 2)) with (100 # 1). lra.
Qed.

(** [toFixed_n 2 v] is the integer nearest to [100 * v], rounding halves up. *)
Lemma toFixed_n_nearest (v : Q) :
  (inject_Z (toFixed_n 2 v) - (1 # 2) <= (100 # 1) * v)%Q /\
  ((100 # 1) * v < inject_Z (toFixed_n 2 v) + (1 # 2))%Q.
Proof.
  unfold toFixed_n. change (pow10 (Z.of_nat 2)) with (100 # 1).
  pose proof (Qfloor_le (v * (100 # 1) + (1 # 2))) as Hle.
  pose proof (Qlt_floor (v * (100 # 1) + (1 # 2))) as Hlt.
  rewrite inject_Z_plus in Hlt. change (inject_Z 1) with 1%Q in Hlt.
  split; lra.
Qed.

Lemma toFixed_render_hundredths (n : N) :
  toFixed_render 2 (Z.of_N n)
  = decimal (n / 100) ++ "."
    ++ String (digit ((n / 10) mod 10)) (String (digit (n mod 10)) EmptyString).
Proof.
  unfold toFixed_render. rewrite N2Z.id.
  destruct (N.lt_ge_cases n 10) as [H10 | H10].
  - (* one digit *)
    rewrite (decimal_small n H10).
    rewrite (N.div_small n 100) by lia.
    rewrite (N.div_small n 10) by lia.
    rewrite (N.mod_small n 10) by lia.
    reflexivity.
  - rewrite (decimal_step n H10).
    destruct (N.lt_ge_cases n 100) as [H100 | H100].
    + (* two digits *)
      assert (Hq : (n / 10 < 10)%N) by (apply N.Div0.div_lt_upper_bound; lia).
      rewrite (decimal_small _ Hq).
      rewrite (N.div_small n 100) by lia.
      rewrite (N.mod_small (n / 10) 10) by lia.
      reflexivity.
    + (* three digits or more *)
      assert (Hq : (10 <= n / 10)%N) by (apply N.div_le_lower_bound; lia).
      rewrite (decimal_step _ Hq).
      rewrite N.Div0.div_div. change (10 * 10)%N with 100%N.
      set (a := decimal (n / 100)).
      set (d1 := digit ((n / 10) mod 10)). set (d0 := digit (n mod 10)).
      rewrite append_assoc.
      change (String d1 "" ++ String d0 "") with (String d1 (String d0 "")).
      set (b := String d1 (String d0 "")).
      pose proof (decimal_nonempty (n / 100)) as Hlen. fold a in Hlen.
      assert (Hk : String.length (a ++ b) = (String.length a + 2)%nat)
        by (rewrite length_append; reflexivity).
      rewrite Hk.
      assert (Hle : (String.length a + 2 <=? 2)%nat = false)
        by (apply Nat.leb_gt; lia).
      rewrite Hle.
      replace (String.length a + 2 - 2)%nat with (String.length a) by lia.
      rewrite substring_prefix.
      change 2%nat with (String.length b) at 1.
      rewrite substring_suffix. reflexivity.
Qed.

(** [toFixed(2)] of a finite Number below 10^21 is that Number rounded to
    hundredths. *)
Lemma toFixed_2_rounds (x : float) :
  toFixed_in_range x = true -> rounded_to_hundredths x (Number_toFixed 2 x).
Proof.
  unfold toFixed_in_range, rounded_to_hundredths, Number_toFixed.
  destruct (Prim2SF x) as [s | s | | s m e]; cbn [SF_magnitude SF_negative];
    intros Hr; try discriminate Hr.
  - exists 0%Q, 0%N. repeat split; try reflexivity; unfold Qle, Qlt; simpl; lia.
  - apply negb_true_iff in Hr. rewrite Hr.
    pose proof (SFvalue_nonneg m e) as Hv.
    pose proof (toFixed_n_nonneg _ Hv) as Hn.
    pose proof (toFixed_n_nearest (SFvalue m e)) as [Hlo Hhi].
    exists (SFvalue m e), (Z.to_N (toFixed_n 2 (SFvalue m e))).
    rewrite (Z2N.id _ Hn).
    repeat split; try assumption.
    rewrite <- toFixed_render_hundredths, (Z2N.id _ Hn). reflexivity.
Qed.

End ToFixedFacts.

Section DisplayFacts.
Local Open Scope string_scope.

(** C7: the easting and northing stored for display are the strings
    [x.toFixed(2)] and [y.toFixed(2)] of the projected coordinates, that is,
    the projected values rounded to exactly two decimals. *)
Theorem easting_northing_two_decimals
    (proj4 : string -> string -> float * float -> float * float)
    (event : MapPressEvent) (st : AppState) (x y : float) :
  let latitude := latitude (coordinate (nativeEvent event)) in
  let longitude := longitude (coordinate (nativeEvent event)) in
  proj4 "WGS84" (proj4String latitude longitude) (longitude, latitude) = (x, y) ->
  toFixed_in_range x = true ->
  toFixed_in_range y = true ->
  exists p,
    clickedPoint (handleMapPress proj4 event st) = Some p /\
    ClickedPoint.est p = Number_toFixed 2 x /\
    ClickedPoint.nord p = Number_toFixed 2 y /\
    rounded_to_hundredths x (ClickedPoint.est p) /\
    rounded_to_hundredths y (ClickedPoint.nord p).
Proof.
  cbv zeta. intros Hxy Hx Hy.
  eexists. split; [apply handleMapPress_clickedPoint |].
  cbv zeta. rewrite Hxy. cbn [ClickedPoint.est ClickedPoint.nord fst snd].
  repeat split; try reflexivity; now apply toFixed_2_rounds.
Qed.

End DisplayFacts.

(* ================================================================= *)
(** * State and effects *)

Section EffectFacts.
Local Open Scope string_scope.
Local Open Scope float_scope.

(** The default centre of the map, Rome: zone 33, northern hemisphere; the
    projection library is asked for zone 33 of ED50. *)
Lemma rome_zone_and_hemisphere
    (proj4 : string -> string -> float * float -> float * float)
    (st : AppState) :
  proj4String 41.9028 12.4964
  = "+proj=utm +zone=33 +ellps=intl +towgs84=-87,-98,-121,0,0,0,0 +units=m +no_defs"
  /\ exists p,
      clickedPoint (handleMapPress proj4 (pressAt 41.9028 12.4964) st) = Some p /\
      ClickedPoint.fuso p = 33 /\
      ClickedPoint.emisfero p = "N".
Proof.
  split; [vm_compute; reflexivity |].
  eexists. split; [apply handleMapPress_clickedPoint |].
  split; vm_compute; reflexivity.
Qed.

(** C9, as the claim states it, fails: [handleMapPress] returns nothing and
    writes the [clickedPoint] cell of the component's state.  The map is on
    screen (tracking has started and a position fix has arrived), no point is
    selected, and a tap on Rome leaves a state that differs from the one
    before the call. *)
Lemma handleMapPress_writes_clickedPoint :
  finiteCoordinate (pressAt 41.9028 12.4964) = true /\
  (forall proj4 toLocaleTimeString,
      let shown :=
        run proj4 toLocaleTimeString
          [ Mount (Fulfilled "granted") (Fulfilled 1%nat) (Fulfilled 2%nat);
            PositionFix (LocationObject.mk 41.9 12.5 (Some 5) 1700000000000) ]
          initialState in
      showsLoadingScreen shown = false /\
      clickedPoint shown = None /\
      clickedPoint (handleMapPress proj4 (pressAt 41.9028 12.4964) shown)
      <> clickedPoint shown /\
      handleMapPress proj4 (pressAt 41.9028 12.4964) shown <> shown).
Proof.
  split; [vm_compute; reflexivity |].
  intros proj4 toLocaleTimeString shown.
  assert (Hnone : clickedPoint shown = None) by reflexivity.
  assert (Hw : clickedPoint (handleMapPress proj4 (pressAt 41.9028 12.4964) shown)
               <> clickedPoint shown).
  { rewrite handleMapPress_clickedPoint, Hnone. discriminate. }
  repeat split; try reflexivity; try exact Hw.
  intros Heq. apply Hw. now rewrite Heq.
Qed.

(** C9, amended: the UTM conversion is deterministic but not pure.  For a
    tap at finite coordinates [handleMapPress] stores a point in the
    [clickedPoint] cell and leaves every other cell of the state as it was;
    the point stored is the same whatever the state before the call: it
    depends on the tapped coordinate and on the projection library only. *)
Theorem core_functions_effects
    (proj4 : string -> string -> float * float -> float * float)
    (event : MapPressEvent) (st st' : AppState) :
  finiteCoordinate event = true ->
  clickedPoint (handleMapPress proj4 event st)
  = clickedPoint (handleMapPress proj4 event st') /\
  clickedPoint (handleMapPress proj4 event st) <> None /\
  location (handleMapPress proj4 event st) = location st /\
  locLoader (handleMapPress proj4 event st) = locLoader st /\
  error (handleMapPress proj4 event st) = error st /\
  heading (handleMapPress proj4 event st) = heading st /\
  mapType (handleMapPress proj4 event st) = mapType st.
Proof.
  intros _. split; [| split].
  - now rewrite !handleMapPress_clickedPoint.
  - rewrite handleMapPress_clickedPoint. discriminate.
  - apply handleMapPress_frame.
Qed.

End EffectFacts.

(* ================================================================= *)
(** * Instances *)

Section Instances.
Local Open Scope string_scope.
Local Open Scope float_scope.

(** A tap whose projection is (291952.8361, 4640623.4642). *)
Lemma easting_northing_two_decimals_witness :
  exists p,
    clickedPoint
      (handleMapPress (fun _ _ _ => (291952.8361, 4640623.4642))
                      (pressAt 41.9028 12.4964) initialState) = Some p /\
    ClickedPoint.est p = Number_toFixed 2 291952.8361 /\
    ClickedPoint.nord p = Number_toFixed 2 4640623.4642 /\
    rounded_to_hundredths 291952.8361 (ClickedPoint.est p) /\
    rounded_to_hundredths 4640623.4642 (ClickedPoint.nord p).
Proof.
  apply (easting_northing_two_decimals
           (fun _ _ _ => (291952.8361, 4640623.4642))
           (pressAt 41.9028 12.4964) initialState
           291952.8361 4640623.4642);
    reflexivity.
Defined.

(** The same tap in two states of the shown map: after a position fix, and
    after a heading reading, a switch to the satellite map and an earlier
    tap elsewhere. *)
Lemma core_functions_effects_witness :
  finiteCoordinate (pressAt 41.9028 12.4964) = true /\
  clickedPoint
    (handleMapPress (fun _ _ _ => (291952.8361, 4640623.4642))
       (pressAt 41.9028 12.4964)
       (run (fun _ _ _ => (291952.8361, 4640623.4642)) (fun _ => "12:00:00")
          [ PositionFix (LocationObject.mk 41.9 12.5 (Some 5) 0) ]
          initialState))
  = clickedPoint
      (handleMapPress (fun _ _ _ => (291952.8361, 4640623.4642))
         (pressAt 41.9028 12.4964)
         (run (fun _ _ _ => (291952.8361, 4640623.4642)) (fun _ => "12:00:00")
            [ PositionFix (LocationObject.mk 41.9 12.5 (Some 5) 0);
              HeadingReading 90;
              SatellitePress;
              MapPress (pressAt (-33.9) 18.4) ]
            initialState)) /\
  clickedPoint
    (handleMapPress (fun _ _ _ => (291952.8361, 4640623.4642))
       (pressAt 41.9028 12.4964)
       (run (fun _ _ _ => (291952.8361, 4640623.4642)) (fun _ => "12:00:00")
          [ PositionFix (LocationObject.mk 41.9 12.5 (Some 5) 0) ]
          initialState))
  = Some {| ClickedPoint.lat := 41.9028;
            ClickedPoint.lon := 12.4964;
            ClickedPoint.est := "291952.84";
            ClickedPoint.nord := "4640623.46";
            ClickedPoint.fuso := 33;
            ClickedPoint.emisfero := "N" |}.
Proof.
  split; [vm_compute; reflexivity |].
  split; [| vm_compute; reflexivity].
  apply (core_functions_effects
           (fun _ _ _ => (291952.8361, 4640623.4642))
           (pressAt 41.9028 12.4964)
           (run (fun _ _ _ => (291952.8361, 4640623.4642)) (fun _ => "12:00:00")
              [ PositionFix (LocationObject.mk 41.9 12.5 (Some 5) 0) ]
              initialState)
           (run (fun _ _ _ => (291952.8361, 4640623.4642)) (fun _ => "12:00:00")
              [ PositionFix (LocationObject.mk 41.9 12.5 (Some 5) 0);
                HeadingReading 90;
                SatellitePress;
                MapPress (pressAt (-33.9) 18.4) ]
              initialState)).
  vm_compute; reflexivity.
Defined.


End Instances.


(* ================================================================= *)
(** * The first screen: position request and overlays *)

Section Screen1Facts.
Local Open Scope string_scope.

Variable toLocaleTimeString : float -> string.

(** X4: whatever the platform answers (denial, rejection at any step,
    success), [getCurrentLocation] ends with [locLoader] false. *)
Theorem getCurrentLocation_clears_loader
    (permission : Settled string) (position : Settled LocationObject.t)
    (headingAnswer : Settled float) (st : Screen1.State) :
  Screen1.locLoader
    (fst (Screen1.getCurrentLocation toLocaleTimeString
            permission position headingAnswer st)) = false.
Proof.
  unfold Screen1.getCurrentLocation, requestPermissions.
  destruct permission as [status | m]; [destruct (negb (status =? "granted")) |];
    try reflexivity.
  destruct position as [loc | m]; [destruct headingAnswer as [h | m] |];
    reflexivity.
Qed.

(** X5: [getCurrentLocation] is all or nothing.  When the permission is
    granted and both the position and the heading are obtained, the position
    is stored together with that heading, the heading cell holds the same
    value and the error is cleared; in every other case (in particular when
    only the heading request fails) the stored location and heading are
    left as they were. *)
Theorem getCurrentLocation_all_or_nothing
    (permission : Settled string) (position : Settled LocationObject.t)
    (headingAnswer : Settled float) (st : Screen1.State) :
  let st' :=
    fst (Screen1.getCurrentLocation toLocaleTimeString
           permission position headingAnswer st) in
  (forall loc h,
      permission = Fulfilled "granted" -> position = Fulfilled loc ->
      headingAnswer = Fulfilled h ->
      Screen1.location st'
      = Some {| Screen1.LocationData.latitude := LocationObject.latitude loc;
                Screen1.LocationData.longitude := LocationObject.longitude loc;
                Screen1.LocationData.accuracy := LocationObject.accuracy loc;
                Screen1.LocationData.timestamp :=
                  toLocaleTimeString (LocationObject.timestamp loc);
                Screen1.LocationData.heading := Some h |} /\
      Screen1.heading st' = h /\ Screen1.error st' = None) /\
  ((forall loc h,
       ~ (permission = Fulfilled "granted" /\ position = Fulfilled loc /\
          headingAnswer = Fulfilled h)) ->
   Screen1.location st' = Screen1.location st /\
   Screen1.heading st' = Screen1.heading st).
Proof.
  cbv zeta. split.
  - intros loc h -> -> ->. repeat split.
  - intros Hnot.
    unfold Screen1.getCurrentLocation, requestPermissions.
    destruct permission as [status | m]; [| split; reflexivity].
    destruct (String.eqb_spec status "granted") as [-> | Hs];
      [| split; reflexivity].
    destruct position as [loc | m]; [| split; reflexivity].
    destruct headingAnswer as [h | m]; [| split; reflexivity].
    exfalso. apply (Hnot loc h). repeat split.
Qed.

(** X19: when a platform call reached by [getCurrentLocation] throws (the
    permission request, the position request once permission is granted, or
    the heading request once the position is obtained), the message of the
    error is what is stored as the error, and the loader is cleared. *)
Theorem getCurrentLocation_failure_reported
    (permission : Settled string) (position : Settled LocationObject.t)
    (headingAnswer : Settled float) (st : Screen1.State)
    (message : option string) :
  permission = Rejected message \/
  (permission = Fulfilled "granted" /\ position = Rejected message) \/
  (permission = Fulfilled "granted" /\
   (exists loc, position = Fulfilled loc) /\
   headingAnswer = Rejected message) ->
  Screen1.getCurrentLocation toLocaleTimeString
    permission position headingAnswer st
  = ({| Screen1.location := Screen1.location st;
        Screen1.locLoader := false;
        Screen1.error := message;
        Screen1.heading := Screen1.heading st |}, []).
Proof.
  intros [-> | [[-> ->] | (-> & [loc ->] & ->)]]; reflexivity.
Qed.

(** X6: when the permission status is anything but "granted",
    [getCurrentLocation] shows the "Permesso negato" alert (cancel button,
    and a button opening the settings), records no error (an earlier error is
    cleared), leaves location and heading untouched and clears the loader;
    the position and heading services are not consulted. *)
Theorem getCurrentLocation_permission_denied
    (status : string) (position : Settled LocationObject.t)
    (headingAnswer : Settled float) (st : Screen1.State) :
  status <> "granted" ->
  Screen1.getCurrentLocation toLocaleTimeString
    (Fulfilled status) position headingAnswer st
  = ({| Screen1.location := Screen1.location st;
        Screen1.locLoader := false;
        Screen1.error := None;
        Screen1.heading := Screen1.heading st |},
     [Alert_alert
        "Permesso negato"
        "Abilita i permessi di localizzazione nelle impostazioni."
        [ AlertButton.mk "Annulla" (Some "cancel") false;
          AlertButton.mk "Impostazioni" None true ]]).
Proof.
  intros Hs. unfold Screen1.getCurrentLocation, requestPermissions.
  destruct (String.eqb_spec status "granted") as [E | _]; [contradiction |].
  reflexivity.
Qed.

Lemma circleRadius_truthy (accuracy : option float) :
  is_zero (circleRadius accuracy) = false /\
  is_nan (circleRadius accuracy) = false.
Proof.
  unfold circleRadius, truthy_number.
  destruct accuracy as [a |]; [| split; reflexivity].
  destruct (is_zero a) eqn:Hz; [split; reflexivity |].
  destruct (is_nan a) eqn:Hn; [split; reflexivity |].
  cbn. split; assumption.
Qed.

(** X7: the radius of the accuracy circle, [location.accuracy || 10], is
    never 0 and never NaN: it is the accuracy when that is a non-zero number,
    and 10 when the accuracy is null, 0, -0 or NaN. *)
Theorem circleRadius_never_degenerate (accuracy : option float) :
  is_zero (circleRadius accuracy) = false /\
  is_nan (circleRadius accuracy) = false /\
  (forall a, accuracy = Some a -> is_zero a = false -> is_nan a = false ->
             circleRadius accuracy = a) /\
  (forall a, accuracy = Some a -> is_zero a = true \/ is_nan a = true ->
             circleRadius accuracy = 10%float) /\
  (accuracy = None -> circleRadius accuracy = 10%float).
Proof.
  destruct (circleRadius_truthy accuracy) as [Hz Hn].
  repeat split; try assumption.
  - intros a -> Hza Hna. unfold circleRadius, truthy_number.
    now rewrite Hza, Hna.
  - intros a -> [Hza | Hna]; unfold circleRadius, truthy_number.
    + now rewrite Hza.
    + rewrite Hna. now rewrite orb_true_r.
  - intros ->. reflexivity.
Qed.

(** X8: without a location nothing is drawn and the map opens on Rome
    (41.9028, 12.4964) with deltas 5; with a location the initial region,
    the accuracy circle and the apex of the direction cone (first and last
    point of a four-point line) all sit at the stored position, and the
    circle has a usable radius - for every implementation of [Math]. *)
Theorem overlays_centred_on_location (M : JSMath float) (st : Screen1.State) :
  match Screen1.location st with
  | Some l =>
      let c := mkLatLng (Screen1.LocationData.latitude l)
                        (Screen1.LocationData.longitude l) in
      Screen1.region_center (Screen1.initialRegion st) = c /\
      exists radius p2 p3,
        Screen1.overlays M st = Some (c, radius, [c; p2; p3; c]) /\
        is_zero radius = false /\ is_nan radius = false
  | None =>
      Screen1.overlays M st = None /\
      Screen1.initialRegion st
      = Screen1.mkRegion (mkLatLng 41.9028%float 12.4964%float) 5%float 5%float
  end.
Proof.
  unfold Screen1.overlays, Screen1.initialRegion.
  destruct (Screen1.location st) as [l |]; [| split; reflexivity].
  cbv zeta. split; [reflexivity |].
  destruct (cone_shape (H := M) (Screen1.LocationData.latitude l)
              (Screen1.LocationData.longitude l) (Screen1.heading st)
              (Some 100%float)) as (p2 & p3 & Hcone).
  exists (circleRadius (Screen1.LocationData.accuracy l)), p2, p3.
  rewrite Hcone. split; [reflexivity |].
  apply circleRadius_truthy.
Qed.

End Screen1Facts.

(* ================================================================= *)
(** * The second screen: tracking, taps and what is displayed *)

Section TrackingFacts.
Local Open Scope string_scope.

Variable proj4 : string -> string -> float * float -> float * float.
Variable toLocaleTimeString : float -> string.

Lemma run_app (events1 events2 : list Event) (st : AppState) :
  run proj4 toLocaleTimeString (events1 ++ events2) st
  = run proj4 toLocaleTimeString events2
      (run proj4 toLocaleTimeString events1 st).
Proof. apply fold_left_app. Qed.

Lemma run_snoc (events : list Event) (e : Event) (st : AppState) :
  run proj4 toLocaleTimeString (events ++ [e]) st
  = step proj4 toLocaleTimeString e (run proj4 toLocaleTimeString events st).
Proof. rewrite run_app. reflexivity. Qed.

Lemma startTracking_cells
    (permission : Settled string) (positionWatch headingWatch : Settled nat)
    (st : AppState) :
  let st' := fst (fst (startTracking permission positionWatch headingWatch st)) in
  location st' = location st /\ heading st' = heading st /\
  clickedPoint st' = clickedPoint st /\ mapType st' = mapType st /\
  (locLoader st' = false \/ locLoader st' = locLoader st).
Proof.
  unfold startTracking, requestPermissions.
  destruct permission as [status | m];
    [destruct (negb (status =? "granted")) |];
    [| destruct positionWatch as [ls | m];
       [destruct headingWatch as [hs | m] |] |];
    cbn; repeat split; auto.
Qed.

Lemma step_location (e : Event) (st : AppState) :
  location (step proj4 toLocaleTimeString e st)
  = match e with
    | PositionFix l =>
        Some {| LocationData.latitude := LocationObject.latitude l;
                LocationData.longitude := LocationObject.longitude l;
                LocationData.accuracy := LocationObject.accuracy l;
                LocationData.timestamp :=
                  toLocaleTimeString (LocationObject.timestamp l) |}
    | _ => location st
    end.
Proof.
  destruct e as [perm pw hw | l | h | ev |]; try reflexivity.
  - apply startTracking_cells.
  - apply handleMapPress_frame.
Qed.

Lemma step_locLoader (e : Event) (st : AppState) :
  match e with
  | PositionFix _ => locLoader (step proj4 toLocaleTimeString e st) = false
  | _ => locLoader (step proj4 toLocaleTimeString e st) = false \/
         locLoader (step proj4 toLocaleTimeString e st) = locLoader st
  end.
Proof.
  destruct e as [perm pw hw | l | h | ev |]; try (right; reflexivity);
    try reflexivity.
  - apply startTracking_cells.
  - right. apply handleMapPress_frame.
Qed.

Lemma step_clickedPoint (e : Event) (st : AppState) :
  clickedPoint (step proj4 toLocaleTimeString e st)
  = match e with
    | MapPress ev => clickedPoint (handleMapPress proj4 ev st)
    | _ => clickedPoint st
    end.
Proof.
  destruct e as [perm pw hw | l | h | ev |]; try reflexivity.
  apply startTracking_cells.
Qed.

Lemma step_mapType (e : Event) (st : AppState) :
  mapType (step proj4 toLocaleTimeString e st)
  = match e with
    | SatellitePress => Some "satellite"
    | _ => mapType st
    end.
Proof.
  destruct e as [perm pw hw | l | h | ev |]; try reflexivity.
  - apply startTracking_cells.
  - apply handleMapPress_frame.
Qed.

(** X9: the last tap wins: a tap after another tap leaves the state that
    the second tap alone would have left (in particular tapping twice at the
    same point changes nothing more). *)
Theorem last_tap_wins (e1 e2 : MapPressEvent) (st : AppState) :
  handleMapPress proj4 e2 (handleMapPress proj4 e1 st)
  = handleMapPress proj4 e2 st.
Proof.
  unfold handleMapPress.
  destruct (proj4 _ _ _) as [x2 y2]. destruct (proj4 _ _ _) as [x1 y1].
  reflexivity.
Qed.

(** X10: taps, position fixes, compass readings and the map-type button
    touch different cells: a tap commutes with each of the other three, and
    a position fix commutes with a compass reading. *)
Theorem tap_commutes_with_tracking
    (ev : MapPressEvent) (l : LocationObject.t) (h : float) (st : AppState) :
  handleMapPress proj4 ev (onPosition toLocaleTimeString l st)
  = onPosition toLocaleTimeString l (handleMapPress proj4 ev st) /\
  handleMapPress proj4 ev (onHeading h st)
  = onHeading h (handleMapPress proj4 ev st) /\
  handleMapPress proj4 ev (setMapType (Some "satellite") st)
  = setMapType (Some "satellite") (handleMapPress proj4 ev st) /\
  onPosition toLocaleTimeString l (onHeading h st)
  = onHeading h (onPosition toLocaleTimeString l st).
Proof.
  unfold handleMapPress.
  destruct (proj4 _ _ _) as [x y]. repeat split.
Qed.

(** X11: after any sequence of events, a selected point exists only if the
    map was tapped, and it is always the conversion of its own coordinates:
    the zone, hemisphere, easting and northing shown are those obtained for
    the marker's latitude and longitude; the marker's title shows the very
    zone that is passed to the projection library. *)
Theorem selected_point_is_consistent (events : list Event) :
  match clickedPoint (run proj4 toLocaleTimeString events initialState) with
  | Some p =>
      clickedPoint
        (handleMapPress proj4
           (pressAt (ClickedPoint.lat p) (ClickedPoint.lon p)) initialState)
      = Some p /\
      markerTitle p
      = "UTM ED50 - Fuso " ++ Number_toString (fuso (ClickedPoint.lon p))
        ++ emisfero (ClickedPoint.lat p) /\
      In (Some ("zone", Some (Number_toString (fuso (ClickedPoint.lon p)))))
         (proj_params (proj4String (ClickedPoint.lat p) (ClickedPoint.lon p)))
  | None => forall ev, ~ In (MapPress ev) events
  end.
Proof.
  induction events as [| e events IH] using rev_ind.
  - cbn. intros ev [].
  - rewrite run_snoc, step_clickedPoint.
    destruct e as [perm pw hw | l | h | ev |].
    all: try (destruct (clickedPoint
                          (run proj4 toLocaleTimeString events initialState))
                as [p |];
              [exact IH |
               intros ev' Hin; apply in_app_or in Hin as [Hin | [Hin | []]];
               [exact (IH ev' Hin) | discriminate Hin]]).
    rewrite handleMapPress_clickedPoint. cbv zeta.
    cbn [ClickedPoint.lat ClickedPoint.lon latitude longitude coordinate
         nativeEvent pressAt].
    split; [| split].
    + rewrite handleMapPress_clickedPoint. reflexivity.
    + reflexivity.
    + rewrite proj4String_params. right. left. reflexivity.
Qed.

(** X12: no event undoes progress: once the map is shown the loading screen
    never comes back, a selected point is replaced but never cleared, and
    the satellite map type is never left. *)
Theorem map_never_returns_to_loading (events : list Event) (st : AppState) :
  (showsLoadingScreen st = false ->
   showsLoadingScreen (run proj4 toLocaleTimeString events st) = false) /\
  (clickedPoint st <> None ->
   clickedPoint (run proj4 toLocaleTimeString events st) <> None) /\
  (mapType st = Some "satellite" ->
   mapType (run proj4 toLocaleTimeString events st) = Some "satellite").
Proof.
  induction events as [| e events IH] using rev_ind; [auto |].
  destruct IH as (IHl & IHc & IHm). rewrite run_snoc.
  set (st' := run proj4 toLocaleTimeString events st) in *.
  split; [| split].
  - intros H0. specialize (IHl H0). unfold showsLoadingScreen in *.
    apply orb_false_iff in IHl as [Hld Hloc]. apply orb_false_iff.
    pose proof (step_locLoader e st') as Hs.
    rewrite step_location.
    destruct e; split; try reflexivity; try assumption;
      try (destruct Hs as [Hs | Hs]; [exact Hs | now rewrite Hs]).
  - intros H0. specialize (IHc H0). rewrite step_clickedPoint.
    destruct e; try exact IHc.
    rewrite handleMapPress_clickedPoint. discriminate.
  - intros H0. specialize (IHm H0). rewrite step_mapType.
    destruct e; try exact IHm. reflexivity.
Qed.

(** X13: starting from the mounted component, the map is shown (instead of
    the loading screen) exactly when at least one position fix has been
    received. *)
Theorem map_shown_iff_position_fix (events : list Event) :
  showsLoadingScreen (run proj4 toLocaleTimeString events initialState) = false
  <-> exists l, In (PositionFix l) events.
Proof.
  assert (Hinv : forall evs,
             (location (run proj4 toLocaleTimeString evs initialState) <> None ->
              locLoader (run proj4 toLocaleTimeString evs initialState) = false) /\
             (location (run proj4 toLocaleTimeString evs initialState) <> None <->
              exists l, In (PositionFix l) evs)).
  { induction evs as [| e evs [IHl IHf]] using rev_ind.
    - cbn. split; [congruence |]. split; [congruence | intros [l []]].
    - rewrite run_snoc. set (st' := run proj4 toLocaleTimeString evs initialState) in *.
      pose proof (step_locLoader e st') as Hs.
      rewrite step_location.
      destruct e as [perm pw hw | l | h | ev |].
      2: { split; [intros _; exact Hs |].
           split; [intros _; exists l; apply in_or_app; right; now left
                  | discriminate]. }
      all: split;
        [ intros Hloc; destruct Hs as [Hs | Hs]; [exact Hs |];
          rewrite Hs; now apply IHl
        | rewrite IHf; split; intros [l Hin]; exists l;
          [ apply in_or_app; now left
          | apply in_app_or in Hin as [Hin | [Hin | []]];
            [exact Hin | discriminate Hin] ] ]. }
  destruct (Hinv events) as [Hl Hf].
  unfold showsLoadingScreen. rewrite orb_false_iff, <- Hf.
  split.
  - intros [_ Hloc]. destruct (location _); [discriminate | discriminate Hloc].
  - intros Hloc. split; [now apply Hl |].
    destruct (location _); [reflexivity | contradiction].
Qed.

Lemma run_location_without_fix (events : list Event) (st : AppState) :
  (forall l, ~ In (PositionFix l) events) ->
  location (run proj4 toLocaleTimeString events st) = location st.
Proof.
  induction events as [| e events IH] using rev_ind; intros Hno; [reflexivity |].
  rewrite run_snoc, step_location.
  assert (Hno' : forall l, ~ In (PositionFix l) events).
  { intros l Hin. apply (Hno l). apply in_or_app. now left. }
  destruct e as [perm pw hw | l | h | ev |]; try (now apply IH).
  exfalso. apply (Hno l). apply in_or_app. right. now left.
Qed.

(** X17: [centerOnMe] animates the camera to the latest position fix
    (zoom 17, pitch 40, 1000 ms) whatever taps, compass readings or other
    events came after it; it does nothing when the map is not mounted or when
    no fix was ever received. *)
Theorem centerOnMe_targets_latest_fix
    (events events' : list Event) (l : LocationObject.t) (st : AppState) :
  (forall l', ~ In (PositionFix l') events') ->
  centerOnMe true
    (run proj4 toLocaleTimeString (events ++ PositionFix l :: events') st)
  = Some (mkCameraAnimation
            (mkLatLng (LocationObject.latitude l) (LocationObject.longitude l))
            17%float 40%float 1000%float) /\
  centerOnMe false
    (run proj4 toLocaleTimeString (events ++ PositionFix l :: events') st)
  = None /\
  centerOnMe true (run proj4 toLocaleTimeString events' initialState) = None.
Proof.
  intros Hno. unfold centerOnMe.
  change (PositionFix l :: events') with ([PositionFix l] ++ events')%list.
  rewrite !run_app, !run_location_without_fix by exact Hno.
  change (run proj4 toLocaleTimeString [PositionFix l]
            (run proj4 toLocaleTimeString events st))
    with (step proj4 toLocaleTimeString (PositionFix l)
            (run proj4 toLocaleTimeString events st)).
  rewrite step_location.
  rewrite (run_location_without_fix events' initialState Hno).
  repeat split.
Qed.

(** X14: when the permission status is anything but "granted" and no
    position is known, [startTracking] leaves the loading screen up with no
    error text; the only feedback is the "Permesso negato" alert, and no
    subscription is left to clean up. *)
Theorem tracking_permission_denied
    (status : string) (positionWatch headingWatch : Settled nat)
    (st : AppState) :
  status <> "granted" ->
  location st = None ->
  let result := startTracking (Fulfilled status) positionWatch headingWatch st in
  showsLoadingScreen (fst (fst result)) = true /\
  errorText (fst (fst result)) = None /\
  cleanup (snd (fst result)) = [] /\
  snd result
  = [Alert_alert
       "Permesso negato"
       "Abilita i permessi di localizzazione nelle impostazioni."
       [ AlertButton.mk "Annulla" (Some "cancel") false;
         AlertButton.mk "Impostazioni" None true ]].
Proof.
  intros Hs Hloc. cbv zeta. unfold startTracking, requestPermissions.
  destruct (String.eqb_spec status "granted") as [E | _]; [contradiction |].
  cbn. unfold showsLoadingScreen. cbn. rewrite Hloc.
  repeat split.
Qed.

(** X15: when one of the awaited platform calls of [startTracking] throws,
    its message is stored as the error and the loader is cleared; without a
    position the loading screen stays, showing the message unless it is
    missing or empty. *)
Theorem tracking_failure_reported
    (permission : Settled string) (positionWatch headingWatch : Settled nat)
    (st : AppState) (message : option string) :
  permission = Rejected message \/
  (permission = Fulfilled "granted" /\ positionWatch = Rejected message) \/
  (permission = Fulfilled "granted" /\
   (exists ls, positionWatch = Fulfilled ls) /\
   headingWatch = Rejected message) ->
  let st' := fst (fst (startTracking permission positionWatch headingWatch st)) in
  error st' = message /\ locLoader st' = false /\
  (location st = None -> showsLoadingScreen st' = true) /\
  errorText st'
  = match message with
    | Some m => if m =? "" then None else Some m
    | None => None
    end.
Proof.
  intros [-> | [[-> ->] | (-> & [ls ->] & ->)]]; cbv zeta;
    unfold startTracking, requestPermissions, showsLoadingScreen, errorText;
    cbn; repeat split; intros ->; reflexivity.
Qed.

End TrackingFacts.

Section UnmountFacts.
Local Open Scope string_scope.

Lemma effectRun_app (events1 events2 : list EffectEvent) (t : TrackingEffect) :
  effectRun (events1 ++ events2) t = effectRun events2 (effectRun events1 t).
Proof. apply fold_left_app. Qed.

Lemma resume_keeps_cleanup_state (a : PlatformAnswer) (t : TrackingEffect) :
  mounted (resume a t) = mounted t /\ removed (resume a t) = removed t.
Proof.
  unfold resume, requestPermissions.
  destruct (phase t), a as [[status | m] | [ls | m] | [hs | m]];
    try (split; reflexivity).
  destruct (negb (status =? "granted")); split; reflexivity.
Qed.

Lemma answers_keep_cleanup_state (answers : list PlatformAnswer) (t : TrackingEffect) :
  mounted (effectRun (map Answer answers) t) = mounted t /\
  removed (effectRun (map Answer answers) t) = removed t.
Proof.
  revert t. induction answers as [| a answers IH]; intros t; [split; reflexivity |].
  change (effectRun (map Answer (a :: answers)) t)
    with (effectRun (map Answer answers) (resume a t)).
  destruct (IH (resume a t)) as [Em Er]. rewrite Em, Er.
  apply resume_keeps_cleanup_state.
Qed.

Lemma unmounted_stays (events : list EffectEvent) (t : TrackingEffect) :
  mounted t = false ->
  mounted (effectRun events t) = false /\
  removed (effectRun events t) = removed t.
Proof.
  revert t. induction events as [| e events IH]; intros t Hm;
    [split; [exact Hm | reflexivity] |].
  change (effectRun (e :: events) t) with (effectRun events (effectStep e t)).
  destruct e as [a |].
  - destruct (resume_keeps_cleanup_state a t) as [Em Er].
    destruct (IH (resume a t)) as [Hm' Hr']; [now rewrite Em |].
    cbn [effectStep]. rewrite Hm', Hr'. split; [reflexivity | exact Er].
  - cbn [effectStep]. rewrite Hm. now apply IH.
Qed.

Lemma resume_settled (a : PlatformAnswer) (t : TrackingEffect) :
  phase t = TrackingSettled -> resume a t = t.
Proof. intros Hp. unfold resume. rewrite Hp. reflexivity. Qed.

Lemma settled_stays (events : list EffectEvent) (t : TrackingEffect) :
  phase t = TrackingSettled ->
  phase (effectRun events t) = TrackingSettled /\
  variables (effectRun events t) = variables t.
Proof.
  revert t. induction events as [| e events IH]; intros t Hp;
    [split; [exact Hp | reflexivity] |].
  change (effectRun (e :: events) t) with (effectRun events (effectStep e t)).
  destruct e as [a |].
  - cbn [effectStep]. rewrite (resume_settled a t Hp). now apply IH.
  - cbn [effectStep]. destruct (mounted t); [| now apply IH].
    match goal with
    | |- context [effectRun events ?u] =>
        destruct (IH u Hp) as [Hp' Hv']; rewrite Hp', Hv'
    end.
    split; reflexivity.
Qed.

Lemma filter_removed (l l' : list nat) :
  incl l l' -> filter (fun s => negb (existsb (Nat.eqb s) l')) l = [].
Proof.
  induction l as [| s l IH]; intros Hincl; [reflexivity |].
  cbn. assert (Hex : existsb (Nat.eqb s) l' = true).
  { apply existsb_exists. exists s. split; [apply Hincl; now left | apply Nat.eqb_refl]. }
  rewrite Hex. cbn. apply IH. intros x Hx. apply Hincl. now right.
Qed.

(** A component that stays mounted: once the three calls have been
    answered (as far as they were made), the effect is where [startTracking]
    says, with the subscriptions in the two variables. *)
Lemma effect_settles_as_startTracking
    (permission : Settled string) (positionWatch headingWatch : Settled nat)
    (st : AppState) :
  let t :=
    effectRun
      (map Answer [ PermissionAnswer permission;
                    PositionWatchAnswer positionWatch;
                    HeadingWatchAnswer headingWatch ])
      (mountEffect st) in
  phase t = TrackingSettled /\ mounted t = true /\ removed t = [] /\
  (component t, variables t, alerts t)
  = startTracking permission positionWatch headingWatch st.
Proof.
  cbv zeta. unfold startTracking, requestPermissions.
  destruct permission as [status | m];
    [destruct (negb (status =? "granted")) eqn:E |];
    [| destruct positionWatch as [ls | m];
       [destruct headingWatch as [hs | m] |] |];
    cbn; unfold requestPermissions; try rewrite E; cbn; repeat split.
Qed.

(** The subscriptions that [startTracking] holds when it has settled. *)
Lemma startTracking_subscriptions
    (permission : Settled string) (positionWatch headingWatch : Settled nat)
    (st : AppState) (s : nat) :
  In s (cleanup
          (snd (fst (startTracking permission positionWatch headingWatch st))))
  <-> permission = Fulfilled "granted" /\
      (positionWatch = Fulfilled s \/
       ((exists ls, positionWatch = Fulfilled ls) /\ headingWatch = Fulfilled s)).
Proof.
  unfold startTracking, requestPermissions, cleanup.
  destruct permission as [status | m].
  - destruct (String.eqb_spec status "granted") as [-> | Hs]; cbn.
    + destruct positionWatch as [ls | m]; [destruct headingWatch as [hs | m] |];
        cbn; split.
      * intros [<- | [<- | []]]; split; auto. right. split; eauto.
      * intros [_ [[= ->] | [_ [= ->]]]]; auto.
      * intros [<- | []]. split; auto.
      * intros [_ [[= ->] | [_ [=]]]]. auto.
      * intros [].
      * intros [_ [[=] | [[ls' [=]] _]]].
    + split; [intros [] | intros [[= E] _]; contradiction].
  - cbn. split; [intros [] | intros [[=] _]].
Qed.

(** X16: the cleanup removes the subscriptions that exist when the
    component unmounts, and nothing later.  When [startTracking] has settled
    before the unmount these are exactly the subscriptions it created: the
    position subscription when the permission was granted and the position
    watch started (even if the heading watch then failed), the heading
    subscription when both started, nothing otherwise; and none is left.
    When the component unmounts while a call is pending, a watch that starts
    afterwards is never removed: unmounted before the permission is
    answered, the effect removes nothing and both subscriptions stay;
    unmounted between the two watches, it removes the position subscription
    and the heading subscription stays. *)
Theorem cleanup_removes_what_exists_at_unmount :
  (forall (before : list PlatformAnswer) (after : list EffectEvent) (st : AppState),
      removed (effectRun (map Answer before ++ Unmount :: after) (mountEffect st))
      = cleanup (variables (effectRun (map Answer before) (mountEffect st)))) /\
  (forall permission positionWatch headingWatch (after : list EffectEvent)
          (st : AppState) (s : nat),
      let final :=
        effectRun
          (map Answer [ PermissionAnswer permission;
                        PositionWatchAnswer positionWatch;
                        HeadingWatchAnswer headingWatch ]
           ++ Unmount :: after)
          (mountEffect st) in
      (In s (removed final)
       <-> permission = Fulfilled "granted" /\
           (positionWatch = Fulfilled s \/
            ((exists ls, positionWatch = Fulfilled ls) /\
             headingWatch = Fulfilled s))) /\
      removed final = cleanup (variables final) /\
      leaked final = []) /\
  (forall (ls hs : nat) (st : AppState),
      let final :=
        effectRun
          [ Unmount;
            Answer (PermissionAnswer (Fulfilled "granted"));
            Answer (PositionWatchAnswer (Fulfilled ls));
            Answer (HeadingWatchAnswer (Fulfilled hs)) ]
          (mountEffect st) in
      removed final = [] /\
      variables final = mkSubscriptions (Some ls) (Some hs) /\
      leaked final = [ls; hs]) /\
  (forall (ls hs : nat) (st : AppState),
      ls <> hs ->
      let final :=
        effectRun
          [ Answer (PermissionAnswer (Fulfilled "granted"));
            Answer (PositionWatchAnswer (Fulfilled ls));
            Unmount;
            Answer (HeadingWatchAnswer (Fulfilled hs)) ]
          (mountEffect st) in
      removed final = [ls] /\
      variables final = mkSubscriptions (Some ls) (Some hs) /\
      leaked final = [hs]).
Proof.
  split; [| split; [| split]].
  - intros before after st.
    rewrite effectRun_app.
    destruct (answers_keep_cleanup_state before (mountEffect st)) as [Hm _].
    set (t := effectRun (map Answer before) (mountEffect st)) in *.
    change (effectRun (Unmount :: after) t)
      with (effectRun after (effectStep Unmount t)).
    cbn [effectStep]. rewrite Hm. cbn [mounted mountEffect].
    match goal with
    | |- removed (effectRun after ?u) = _ =>
        destruct (unmounted_stays after u eq_refl) as [_ Hr]; rewrite Hr
    end.
    reflexivity.
  - intros permission positionWatch headingWatch after st s. cbv zeta.
    rewrite effectRun_app.
    pose proof (effect_settles_as_startTracking permission positionWatch
                  headingWatch st) as Hs.
    cbv zeta in Hs. destruct Hs as (Hp & Hm & _ & Heq).
    set (t := effectRun (map Answer _) (mountEffect st)) in *.
    assert (Hv : variables t
                 = snd (fst (startTracking permission positionWatch headingWatch st)))
      by (rewrite <- Heq; reflexivity).
    change (effectRun (Unmount :: after) t)
      with (effectRun after (effectStep Unmount t)).
    cbn [effectStep]. rewrite Hm.
    match goal with
    | |- context [effectRun after ?u] =>
        destruct (unmounted_stays after u eq_refl) as [_ Hr];
        destruct (settled_stays after u Hp) as [_ Hvar];
        rewrite Hr, Hvar
    end.
    unfold leaked. rewrite Hr, Hvar.
    cbn [removed variables]. rewrite Hv.
    split; [apply startTracking_subscriptions |].
    split; [reflexivity | apply filter_removed, incl_refl].
  - intros ls hs st. cbv zeta. cbn. unfold leaked. cbn. repeat split.
  - intros ls hs st Hne. cbv zeta. cbn. unfold leaked. cbn.
    rewrite Nat.eqb_refl. cbn.
    destruct (Nat.eqb_spec hs ls) as [E | _]; [symmetry in E; contradiction |].
    repeat split.
Qed.

End UnmountFacts.

(* ================================================================= *)
(** * Further instances *)

Section MoreInstances.
Local Open Scope string_scope.

(** A denied permission on the first screen. *)
Lemma getCurrentLocation_permission_denied_witness :
  Screen1.getCurrentLocation (fun _ => "12:00:00")
    (Fulfilled "denied") (Rejected None) (Rejected None) Screen1.initialState
  = ({| Screen1.location := None;
        Screen1.locLoader := false;
        Screen1.error := None;
        Screen1.heading := 0%float |},
     [Alert_alert
        "Permesso negato"
        "Abilita i permessi di localizzazione nelle impostazioni."
        [ AlertButton.mk "Annulla" (Some "cancel") false;
          AlertButton.mk "Impostazioni" None true ]]).
Proof.
  apply (getCurrentLocation_permission_denied (fun _ => "12:00:00") "denied"
           (Rejected None) (Rejected None) Screen1.initialState).
  discriminate.
Defined.

(** The heading request fails after the position was obtained. *)
Lemma getCurrentLocation_failure_reported_witness :
  Screen1.getCurrentLocation (fun _ => "12:00:00")
    (Fulfilled "granted")
    (Fulfilled (LocationObject.mk 41.9028 12.4964 (Some 5%float) 0))
    (Rejected (Some "no compass")) Screen1.initialState
  = ({| Screen1.location := None;
        Screen1.locLoader := false;
        Screen1.error := Some "no compass";
        Screen1.heading := 0%float |}, []).
Proof.
  apply (getCurrentLocation_failure_reported (fun _ => "12:00:00")
           (Fulfilled "granted")
           (Fulfilled (LocationObject.mk 41.9028 12.4964 (Some 5%float) 0))
           (Rejected (Some "no compass")) Screen1.initialState
           (Some "no compass")).
  right. right. split; [reflexivity |]. split; [eexists; reflexivity | reflexivity].
Defined.

(** A denied permission on the second screen. *)
Lemma tracking_permission_denied_witness :
  showsLoadingScreen
    (fst (fst (startTracking (Fulfilled "denied") (Rejected None)
                 (Rejected None) initialState))) = true /\
  errorText
    (fst (fst (startTracking (Fulfilled "denied") (Rejected None)
                 (Rejected None) initialState))) = None /\
  cleanup
    (snd (fst (startTracking (Fulfilled "denied") (Rejected None)
                 (Rejected None) initialState))) = [] /\
  snd (startTracking (Fulfilled "denied") (Rejected None)
         (Rejected None) initialState)
  = [Alert_alert
       "Permesso negato"
       "Abilita i permessi di localizzazione nelle impostazioni."
       [ AlertButton.mk "Annulla" (Some "cancel") false;
         AlertButton.mk "Impostazioni" None true ]].
Proof.
  apply (tracking_permission_denied "denied" (Rejected None) (Rejected None)
           initialState).
  - discriminate.
  - reflexivity.
Defined.

(** The position watch fails with a message. *)
Lemma tracking_failure_reported_witness :
  error (fst (fst (startTracking (Fulfilled "granted")
                     (Rejected (Some "GPS off")) (Fulfilled 2%nat)
                     initialState))) = Some "GPS off" /\
  locLoader (fst (fst (startTracking (Fulfilled "granted")
                         (Rejected (Some "GPS off")) (Fulfilled 2%nat)
                         initialState))) = false /\
  (location initialState = None ->
   showsLoadingScreen
     (fst (fst (startTracking (Fulfilled "granted")
                  (Rejected (Some "GPS off")) (Fulfilled 2%nat)
                  initialState))) = true) /\
  errorText (fst (fst (startTracking (Fulfilled "granted")
                         (Rejected (Some "GPS off")) (Fulfilled 2%nat)
                         initialState)))
  = (if "GPS off" =? "" then None else Some "GPS off").
Proof.
  apply (tracking_failure_reported (Fulfilled "granted")
           (Rejected (Some "GPS off")) (Fulfilled 2%nat) initialState
           (Some "GPS off")).
  right. left. split; reflexivity.
Defined.

(** A fix followed by a tap. *)
Lemma centerOnMe_targets_latest_fix_witness :
  centerOnMe true
    (run (fun _ _ xy => xy) (fun _ => "12:00:00")
       ([] ++ PositionFix (LocationObject.mk 41.9028 12.4964 None 0)
           :: [MapPress (pressAt 41.9 12.5)])%list
       initialState)
  = Some (mkCameraAnimation (mkLatLng 41.9028%float 12.4964%float)
            17%float 40%float 1000%float) /\
  centerOnMe false
    (run (fun _ _ xy => xy) (fun _ => "12:00:00")
       ([] ++ PositionFix (LocationObject.mk 41.9028 12.4964 None 0)
           :: [MapPress (pressAt 41.9 12.5)])%list
       initialState)
  = None /\
  centerOnMe true
    (run (fun _ _ xy => xy) (fun _ => "12:00:00")
       [MapPress (pressAt 41.9 12.5)] initialState)
  = None.
Proof.
  apply (centerOnMe_targets_latest_fix (fun _ _ xy => xy) (fun _ => "12:00:00")
           [] [MapPress (pressAt 41.9 12.5)]
           (LocationObject.mk 41.9028 12.4964 None 0) initialState).
  intros l' [Hin | []]. discriminate Hin.
Defined.

End MoreInstances.
